(** * Weather widget: icon selection and fetch orchestration

    A shallow embedding of [src/components/Weather.jsx]: the icon selector
    [getWeatherIcon] and the event handlers of the [Weather] component
    ([fetchWeatherWithUnit], [onSubmit], [toggleUnit],
    [getCurrentLocationWeather]), followed by the properties the
    specification states about them. *)

From Stdlib Require Import ZArith QArith Bool List String Lia Lqa DecimalString.
Import ListNotations.

Local Open Scope Z_scope.

(** ** JavaScript numbers

    A JavaScript number is an IEEE double: a finite rational, an infinity or
    NaN.  The component only compares numbers with integer literals, and on
    doubles these comparisons are exact, so the finite values are embedded
    in [Q]. *)

Module JS.

Inductive number : Type :=
| NaN
| NegInf
| Fin (q : Q)
| PosInf.

(** [undefined] converts to NaN (ToNumber). *)
Definition ToNumber (v : option number) : number :=
  match v with
  | Some n => n
  | None => NaN
  end.

(** [a < b]; every comparison with NaN is false. *)
Definition lt (a b : number) : bool :=
  match a, b with
  | NaN, _ | _, NaN => false
  | NegInf, NegInf => false
  | NegInf, _ => true
  | Fin _, NegInf => false
  | Fin p, Fin q => negb (Qle_bool q p)
  | Fin _, PosInf => true
  | PosInf, _ => false
  end.

(** [a >= b]. *)
Definition ge (a b : number) : bool :=
  match a, b with
  | NaN, _ | _, NaN => false
  | _, NegInf => true
  | NegInf, _ => false
  | Fin p, Fin q => Qle_bool q p
  | Fin _, PosInf => false
  | PosInf, _ => true
  end.

(** [a === b] on numbers. *)
Definition strict_eq (a b : number) : bool :=
  match a, b with
  | NegInf, NegInf | PosInf, PosInf => true
  | Fin p, Fin q => Qeq_bool p q
  | _, _ => false
  end.

(** An integer literal of the source. *)
Definition lit (z : Z) : number := Fin (inject_Z z).

(** Truthiness of a string: only the empty string is falsy. *)
Definition truthy (s : string) : bool :=
  match s with
  | EmptyString => false
  | String _ _ => true
  end.

(** Truthiness of a possibly [undefined] string. *)
Definition truthy_opt (s : option string) : bool :=
  match s with
  | Some s => truthy s
  | None => false
  end.

(** [a || b] on strings, as used for message fallbacks. *)
Definition or_else (a : option string) (b : string) : string :=
  match a with
  | Some s => if truthy s then s else b
  | None => b
  end.

(** [hay.includes(needle)]. *)
Fixpoint includes (needle hay : string) : bool :=
  String.prefix needle hay ||
  match hay with
  | EmptyString => false
  | String _ rest => includes needle rest
  end.

(** Template-literal rendering of an integer. *)
Definition string_of_Z (z : Z) : string :=
  NilZero.string_of_int (Z.to_int z).

End JS.

(** ** Thrown exceptions

    A computation either returns or throws; a thrown [Error] is represented
    by its [message]. *)

Inductive Exc (E A : Type) : Type :=
| Return (a : A)
| Throw (e : E).
Arguments Return {E A} a.
Arguments Throw {E A} e.

Definition bind {E A B} (c : Exc E A) (k : A -> Exc E B) : Exc E B :=
  match c with
  | Return a => k a
  | Throw e => Throw e
  end.

Notation "'let*' x ':=' c 'in' k" := (bind c (fun x => k))
  (at level 10, x pattern, c at level 100, k at level 200).

(** ** The provider's response body

    Objects parsed from the provider's JSON are read as structs.  Each
    property has the type the response schema gives it; a property that is
    missing reads as [undefined], which is [None] here.  Only the properties
    the component's logic reads are kept (the others are only rendered). *)

Record Condition : Type := mkCondition {
  id : option JS.number;
  description : option string
}.

Record Main : Type := mkMain {
  temp : option JS.number;
  feels_like : option JS.number;
  humidity : option JS.number;
  pressure : option JS.number
}.

(** The [cod] property of an error body is a number or a string. *)
Inductive Cod : Type :=
| CodNumber (n : JS.number)
| CodString (s : string).

Record Body : Type := mkBody {
  name : option string;
  main : option Main;
  weather : option (list Condition);
  cod : option Cod;
  message : option string
}.

(** The empty object [{}]. *)
Definition empty_object : Body := mkBody None None None None None.

Inductive UnitSystem : Type := metric | imperial.

(** The seven image assets. *)
Inductive Icon : Type :=
| clearIcon
| cloudyIcon
| rainyIcon
| snowIcon
| stormIcon
| downpourIcon
| atmosphericIcon.

(** Reading a property of [undefined]. *)
Inductive TypeError : Type := CannotReadProperty.

(** ** getWeatherIcon *)

Definition freezing (currentUnit : UnitSystem) : JS.number :=
  match currentUnit with metric => JS.lit 0 | imperial => JS.lit 32 end.
Definition cold (currentUnit : UnitSystem) : JS.number :=
  match currentUnit with metric => JS.lit 10 | imperial => JS.lit 50 end.
Definition cool (currentUnit : UnitSystem) : JS.number :=
  match currentUnit with metric => JS.lit 15 | imperial => JS.lit 59 end.
Definition warm (currentUnit : UnitSystem) : JS.number :=
  match currentUnit with metric => JS.lit 25 | imperial => JS.lit 77 end.

(** The decisions taken once [temp] and [conditionId] have been read
    (lines 25-83 of the source). *)
Definition iconFor (conditionId temp : JS.number) (currentUnit : UnitSystem)
  : Icon :=
  if JS.ge conditionId (JS.lit 200) && JS.lt conditionId (JS.lit 300) then
    stormIcon
  else if (JS.ge conditionId (JS.lit 300) && JS.lt conditionId (JS.lit 400))
          || (JS.ge conditionId (JS.lit 500) && JS.lt conditionId (JS.lit 600))
  then
    if JS.strict_eq conditionId (JS.lit 502)
       || JS.strict_eq conditionId (JS.lit 503)
       || JS.strict_eq conditionId (JS.lit 504)
       || JS.strict_eq conditionId (JS.lit 522)
    then downpourIcon
    else rainyIcon
  else if JS.ge conditionId (JS.lit 600) && JS.lt conditionId (JS.lit 700) then
    snowIcon
  else if JS.ge conditionId (JS.lit 700) && JS.lt conditionId (JS.lit 800) then
    atmosphericIcon
  else if JS.lt temp (freezing currentUnit) then snowIcon
  else if JS.lt temp (cold currentUnit) then cloudyIcon
  else if JS.lt temp (cool currentUnit) then cloudyIcon
  else if JS.lt temp (warm currentUnit) then
    if JS.strict_eq conditionId (JS.lit 800) then clearIcon else cloudyIcon
  else clearIcon.

(** [weatherData] is the component's [data] state: [null] ([None]) or a
    response body.  The guard of line 16 returns before [main] is read;
    [weatherData.main.temp] throws when [main] is missing. *)
Definition getWeatherIcon (weatherData : option Body) (currentUnit : UnitSystem)
  : Exc TypeError Icon :=
  match weatherData with
  | None => Return cloudyIcon
  | Some wd =>
    match weather wd with
    | None => Return cloudyIcon
    | Some conditions =>
      match nth_error conditions 0 with
      | None => Return cloudyIcon
      | Some first =>
        let* temp := match main wd with
                     | None => Throw CannotReadProperty
                     | Some m => Return (JS.ToNumber (temp m))
                     end in
        let conditionId := JS.ToNumber (id first) in
        Return (iconFor conditionId temp currentUnit)
      end
    end
  end.

(** ** The Weather component *)

(** [fetch(url)] resolves to a response or rejects with an error; so does
    [res.json()], which resolves to the parsed body ([None] is JSON
    [null]). *)
Record Response : Type := mkResponse {
  ok : bool;
  status : Z;
  statusText : string;
  json : Exc string (option Body)
}.

Definition FetchOutcome : Type := Exc string Response.

(** [new Date()], in milliseconds since the epoch. *)
Definition Date : Type := Z.

(** The query parameters of a request URL. *)
Inductive Request : Type :=
| CityRequest (q appid : string) (units : UnitSystem)
| CoordsRequest (lat lon : JS.number) (appid : string) (units : UnitSystem).

(** The component's [useState] cells. *)
Record State : Type := mkState {
  query : option string;
  data : option Body;
  loading : bool;
  error : string;
  fetchTime : option Date;
  unit : UnitSystem
}.

Definition initialState : State :=
  mkState (Some EmptyString) None false EmptyString None metric.

Definition setQuery (v : option string) (s : State) : State :=
  mkState v (data s) (loading s) (error s) (fetchTime s) (unit s).
Definition setData (v : option Body) (s : State) : State :=
  mkState (query s) v (loading s) (error s) (fetchTime s) (unit s).
Definition setLoading (v : bool) (s : State) : State :=
  mkState (query s) (data s) v (error s) (fetchTime s) (unit s).
Definition setError (v : string) (s : State) : State :=
  mkState (query s) (data s) (loading s) v (fetchTime s) (unit s).
Definition setFetchTime (v : option Date) (s : State) : State :=
  mkState (query s) (data s) (loading s) (error s) v (unit s).
Definition setUnit (v : UnitSystem) (s : State) : State :=
  mkState (query s) (data s) (loading s) (error s) (fetchTime s) v.

(** The messages of the source. *)
Module Msg.
Local Open Scope string_scope.

Definition nl : string := String (Ascii.ascii_of_nat 10) EmptyString.

Definition noApiKey : string :=
  "No API key found. Add VITE_OPENWEATHER_API_KEY to .env".
Definition unauthorized : string :=
  "API key invalid or not activated yet. Wait 10-15 minutes after signup, then try again.".
Definition notFound : string :=
  "City not found. Please check the spelling and try again.".
Definition tooManyRequests : string :=
  "Too many requests. Please wait a moment and try again.".
Definition serviceError : string :=
  "OpenWeatherMap service error. This usually means:" ++ nl ++
  "1. Your API key needs to be activated (wait 15-30 min)" ++ nl ++
  "2. Your account needs email verification" ++ nl ++
  "3. Try generating a new API key at: https://home.openweathermap.org/api_keys".
Definition invalidResponse : string :=
  "Invalid response from weather API".
Definition fetchFailed : string :=
  "Failed to fetch weather data".
Definition geoUnsupported : string :=
  "Geolocation is not supported by your browser".
Definition geoFetchFailed : string :=
  "Failed to fetch weather for your location".
Definition geoDenied : string :=
  "Unable to get your location. Please enable location access.".

(** [`Error: ${res.status} - ${res.statusText}`] *)
Definition httpError (status : Z) (statusText : string) : string :=
  "Error: " ++ JS.string_of_Z status ++ " - " ++ statusText.
(** [`Error: ${res.status}`] *)
Definition httpStatus (status : Z) : string :=
  "Error: " ++ JS.string_of_Z status.

End Msg.

Section Component.

(** [import.meta.env.VITE_OPENWEATHER_API_KEY || ''] *)
Variable API_KEY : string.

(** Whether [navigator.geolocation] exists. *)
Variable geolocation : bool.

(** The message of the [TypeError] the engine raises for reading a property
    of [null]. *)
Variable nullPropertyMessage : string.

(** [await res.json().catch(() => ({}))] *)
Definition errorDataOf (res : Response) : option Body :=
  match json res with
  | Return v => v
  | Throw _ => Some empty_object
  end.

(** Reading a property of [errorData] throws when it is [null]. *)
Definition deref (errorData : option Body) : Exc string Body :=
  match errorData with
  | Some o => Return o
  | None => Throw nullPropertyMessage
  end.

(** [errorData.cod === 500000 || errorData.message?.includes('500000')] *)
Definition isServiceError (errorData : Body) : bool :=
  match cod errorData with
  | Some (CodNumber n) => JS.strict_eq n (JS.lit 500000)
  | _ => false
  end
  || match message errorData with
     | Some m => JS.includes "500000" m
     | None => false
     end.

(** [!json || !json.main || !json.weather] and the [throw] it guards. *)
Definition validate (parsed : option Body) : Exc string Body :=
  match parsed with
  | None => Throw Msg.invalidResponse
  | Some body =>
    match main body, weather body with
    | Some _, Some _ => Return body
    | _, _ => Throw Msg.invalidResponse
    end
  end.

(** The [try] block of [fetchWeatherWithUnit] from [await fetch(url)] on:
    the body to store, or the message of the error thrown. *)
Definition cityTry (outcome : FetchOutcome) : Exc string Body :=
  let* res := outcome in
  if negb (ok res) then
    let errorData := errorDataOf res in
    if status res =? 401 then Throw Msg.unauthorized
    else if status res =? 404 then Throw Msg.notFound
    else if status res =? 429 then Throw Msg.tooManyRequests
    else
      let* o := deref errorData in
      if isServiceError o then Throw Msg.serviceError
      else Throw (JS.or_else (message o)
                    (Msg.httpError (status res) (statusText res)))
  else
    let* parsed := json res in
    validate parsed.

(** [fetchWeatherWithUnit] up to [await fetch(url)]: the state written and
    the requests sent. *)
Definition fetchWeatherWithUnit_start (city : string) (specificUnit : UnitSystem)
    (s : State) : State * list Request :=
  if negb (JS.truthy API_KEY) then (setError Msg.noApiKey s, [])
  else (setData None (setError EmptyString (setLoading true s)),
        [CityRequest city API_KEY specificUnit]).

(** [fetchWeatherWithUnit] after [await fetch(url)]: the rest of [try],
    then [catch] and [finally]. *)
Definition fetchWeatherWithUnit_resume (outcome : FetchOutcome) (now : Date)
    (s : State) : State :=
  setLoading false
    match cityTry outcome with
    | Return body => setFetchTime (Some now) (setData (Some body) s)
    | Throw msg => setError (JS.or_else (Some msg) Msg.fetchFailed) s
    end.

(** One uninterrupted run of [fetchWeatherWithUnit]: the completion is
    applied to the state its own start produced, and runs only when a
    request was sent.  The source suspends at [await fetch(url)], where
    other handlers and completions may run; such runs are those of [run]
    below, with [fetchWeatherWithUnit_start] and
    [fetchWeatherWithUnit_resume] as separate events. *)
Definition fetchWeatherWithUnit (city : string) (specificUnit : UnitSystem)
    (outcome : FetchOutcome) (now : Date) (s : State) : State * list Request :=
  let (s1, sent) := fetchWeatherWithUnit_start city specificUnit s in
  match sent with
  | [] => (s1, sent)
  | _ :: _ => (fetchWeatherWithUnit_resume outcome now s1, sent)
  end.

Definition fetchWeather (city : string) (s : State) : State * list Request :=
  fetchWeatherWithUnit_start city (unit s) s.

Definition onSubmit (s : State) : State * list Request :=
  match query s with
  | Some q => if JS.truthy q then fetchWeather q s else (s, [])
  | None => (s, [])
  end.

Definition toggleUnit (s : State) : State * list Request :=
  let newUnit := match unit s with metric => imperial | imperial => metric end in
  let s1 := setUnit newUnit s in
  match data s, query s with
  | Some _, Some q =>
    if JS.truthy q then fetchWeatherWithUnit_start q newUnit s1 else (s1, [])
  | _, _ => (s1, [])
  end.

(** [getCurrentLocationWeather] up to [getCurrentPosition]; when the
    position is requested, the callbacks close over the current [unit]. *)
Definition getCurrentLocationWeather (s : State) : State * option UnitSystem :=
  if negb geolocation then (setError Msg.geoUnsupported s, None)
  else (setError EmptyString (setLoading true s), Some (unit s)).

(** The success callback up to [await fetch(url)]. *)
Definition onPosition_start (unit : UnitSystem) (latitude longitude : JS.number)
  : list Request :=
  [CoordsRequest latitude longitude API_KEY unit].

(** The [try] block of the success callback from [await fetch(url)] on. *)
Definition positionTry (outcome : FetchOutcome) : Exc string Body :=
  let* res := outcome in
  if negb (ok res) then
    let errorData := errorDataOf res in
    let* o := deref errorData in
    Throw (JS.or_else (message o) (Msg.httpStatus (status res)))
  else
    let* parsed := json res in
    validate parsed.

(** The success callback after [await fetch(url)]. *)
Definition onPosition_resume (outcome : FetchOutcome) (now : Date) (s : State)
  : State :=
  setLoading false
    match positionTry outcome with
    | Return body =>
      setQuery (name body) (setFetchTime (Some now) (setData (Some body) s))
    | Throw msg => setError (JS.or_else (Some msg) Msg.geoFetchFailed) s
    end.

(** The error callback of [getCurrentPosition]. *)
Definition onPositionError (s : State) : State :=
  setError Msg.geoDenied (setLoading false s).

End Component.

(** ** Sample data *)

Definition sampleMain (t : option JS.number) : Main :=
  mkMain t None None None.

(** A body with one condition entry. *)
Definition sampleBody (code t : option JS.number) : Body :=
  mkBody (Some "Colombo"%string) (Some (sampleMain t))
    (Some [mkCondition code None]) None None.

(** The heavy-rain subcodes. *)
Definition heavyRain : list Z := [502; 503; 504; 522].

(** The specification's threshold table: freezing, cold, cool, warm. *)
Definition specThresholds (u : UnitSystem) : Z * Z * Z * Z :=
  match u with
  | metric => (0, 10, 15, 25)
  | imperial => (32, 50, 59, 77)
  end.

(** The guard of [getWeatherIcon]: no data, no [weather] list, or no first
    entry in it. *)
Definition conditionsMissing (weatherData : option Body) : bool :=
  match weatherData with
  | None => true
  | Some wd =>
    match weather wd with
    | None | Some [] => true
    | Some (_ :: _) => false
    end
  end.

(** A body whose [main] section is missing although a condition is
    listed. *)
Definition bodyWithoutMain : Body :=
  mkBody (Some "Colombo"%string) None
    (Some [mkCondition (Some (JS.lit 800)) None]) None None.

(** ** The specification's error taxonomy *)

Inductive ErrorKind : Type :=
| MissingCredential
| Unauthorized
| NotFound
| RateLimited
| ProviderMisconfigured
| MalformedResponse
| LocationUnavailable
| LocationDenied
| Unknown (message : string).

(** The message the component shows for each kind. *)
Definition errorMessage (k : ErrorKind) : string :=
  match k with
  | MissingCredential => Msg.noApiKey
  | Unauthorized => Msg.unauthorized
  | NotFound => Msg.notFound
  | RateLimited => Msg.tooManyRequests
  | ProviderMisconfigured => Msg.serviceError
  | MalformedResponse => Msg.invalidResponse
  | LocationUnavailable => Msg.geoUnsupported
  | LocationDenied => Msg.geoDenied
  | Unknown message => message
  end.

(** The specification's classification of a non-success response, in its
    order: status 401, 404, 429, provider code 500000, anything else. *)
Definition classify (res : Response) (errorData : Body) : ErrorKind :=
  if status res =? 401 then Unauthorized
  else if status res =? 404 then NotFound
  else if status res =? 429 then RateLimited
  else if isServiceError errorData then ProviderMisconfigured
  else Unknown (JS.or_else (message errorData)
                  (Msg.httpError (status res) (statusText res))).

(** ** Sample states and responses *)

(** A success body whose condition list is empty. *)
Definition bodyWithoutConditions : Body :=
  mkBody (Some "Colombo"%string) (Some (sampleMain (Some (JS.lit 30))))
    (Some []) None None.

(** The state after a successful search for Colombo. *)
Definition showingColombo : State :=
  mkState (Some "Colombo"%string)
    (Some (sampleBody (Some (JS.lit 800)) (Some (JS.lit 30))))
    false EmptyString (Some 1700000000000) metric.


(** HTTP 401 with a body that is not JSON. *)
Definition response401 : Response :=
  mkResponse false 401 "Unauthorized" (Throw "Unexpected end of JSON input"%string).

(** HTTP 200 with a body whose condition list is empty. *)
Definition responseWithoutConditions : Response :=
  mkResponse true 200 "OK" (Return (Some bodyWithoutConditions)).

(** ** Ranges of condition codes *)

(** [lo <= n && n < hi] holds for finite numbers only. *)
Definition codeIn (n : JS.number) (lo hi : Z) : Prop :=
  exists q, n = JS.Fin q /\ (inject_Z lo <= q)%Q /\ (q < inject_Z hi)%Q.

(** One of the four families that are decided before the temperature. *)
Definition severe (n : JS.number) : Prop :=
  codeIn n 200 300 \/ codeIn n 300 400 \/ codeIn n 500 600 \/
  codeIn n 600 700 \/ codeIn n 700 800.

(** The temperature bands of lines 50-83, reached when no family matched;
    [clearSky] is the outcome of [conditionId === 800]. *)
Definition tempIcon (clearSky : bool) (temp : JS.number)
    (currentUnit : UnitSystem) : Icon :=
  if JS.lt temp (freezing currentUnit) then snowIcon
  else if JS.lt temp (cold currentUnit) then cloudyIcon
  else if JS.lt temp (cool currentUnit) then cloudyIcon
  else if JS.lt temp (warm currentUnit) then
    if clearSky then clearIcon else cloudyIcon
  else clearIcon.

(** [conditionId] is one of the heavy-rain subcodes. *)
Definition heavy (n : JS.number) : Prop :=
  exists q, n = JS.Fin q /\
            (q == 502 \/ q == 503 \/ q == 504 \/ q == 522)%Q.

(** Celsius to Fahrenheit. *)
Definition toFahrenheit (t : Q) : Q := (t * (9 # 5) + 32)%Q.

(** ** The event loop

    What the component waits for: the promise of a [fetch] sent by
    [fetchWeatherWithUnit], the callbacks of [getCurrentPosition] (which
    close over the [unit] of the render that registered them), or the
    promise of the [fetch] sent by the position callback. *)

Inductive Pending : Type :=
| AwaitFetch (r : Request)
| AwaitPosition (unit : UnitSystem)
| AwaitPositionFetch (r : Request).

(** User events and the completions of what is pending; [i] is the position
    of the completed entry in the pending list. *)
Inductive Event : Type :=
| Typed (text : string)
| Submitted
| UnitToggled
| LocationClicked
| Settled (i : nat) (outcome : FetchOutcome) (now : Date)
| Positioned (i : nat) (latitude longitude : JS.number)
| PositionDenied (i : nat).

Record Config : Type := mkConfig {
  state : State;
  pending : list Pending;
  requests : list Request
}.

Definition initialConfig : Config := mkConfig initialState [] [].

Fixpoint remove_nth {A : Type} (i : nat) (l : list A) : list A :=
  match l, i with
  | [], _ => []
  | _ :: rest, O => rest
  | x :: rest, S j => x :: remove_nth j rest
  end.

Section EventLoop.

Variable API_KEY : string.
Variable geolocation : bool.
Variable nullPropertyMessage : string.

(** A handler of the city path, run in a configuration. *)
Definition cityHandler (h : State -> State * list Request) (c : Config)
  : Config :=
  let (s, reqs) := h (state c) in
  mkConfig s (pending c ++ map AwaitFetch reqs) (requests c ++ reqs).

(** One event; [None] when the event names nothing that is pending. *)
Definition step (e : Event) (c : Config) : option Config :=
  match e with
  | Typed text =>
    Some (mkConfig (setQuery (Some text) (state c)) (pending c) (requests c))
  | Submitted => Some (cityHandler (onSubmit API_KEY) c)
  | UnitToggled => Some (cityHandler (toggleUnit API_KEY) c)
  | LocationClicked =>
    let (s, registered) := getCurrentLocationWeather geolocation (state c) in
    Some (mkConfig s
            (pending c ++ match registered with
                          | Some u => [AwaitPosition u]
                          | None => []
                          end)
            (requests c))
  | Settled i outcome now =>
    match nth_error (pending c) i with
    | Some (AwaitFetch _) =>
      Some (mkConfig
              (fetchWeatherWithUnit_resume nullPropertyMessage outcome now
                 (state c))
              (remove_nth i (pending c)) (requests c))
    | Some (AwaitPositionFetch _) =>
      Some (mkConfig
              (onPosition_resume nullPropertyMessage outcome now (state c))
              (remove_nth i (pending c)) (requests c))
    | _ => None
    end
  | Positioned i latitude longitude =>
    match nth_error (pending c) i with
    | Some (AwaitPosition u) =>
      let reqs := onPosition_start API_KEY u latitude longitude in
      Some (mkConfig (state c)
              (remove_nth i (pending c) ++ map AwaitPositionFetch reqs)
              (requests c ++ reqs))
    | _ => None
    end
  | PositionDenied i =>
    match nth_error (pending c) i with
    | Some (AwaitPosition _) =>
      Some (mkConfig (onPositionError (state c))
              (remove_nth i (pending c)) (requests c))
    | _ => None
    end
  end.

Fixpoint run (events : list Event) (c : Config) : option Config :=
  match events with
  | [] => Some c
  | e :: rest =>
    match step e c with
    | Some c' => run rest c'
    | None => None
    end
  end.

End EventLoop.

(** The data the component stores has passed the validation. *)
Definition storedValid (s : State) : Prop :=
  match data s with
  | None => True
  | Some body => main body <> None /\ weather body <> None
  end.

(** A request carries the configured key; a city request also carries a
    non-empty city and a non-empty key. *)
Definition wellFormed (key : string) (r : Request) : Prop :=
  match r with
  | CityRequest q appid _ =>
    appid = key /\ JS.truthy key = true /\ JS.truthy q = true
  | CoordsRequest _ _ appid _ => appid = key
  end.

(** A success response carrying [body]. *)
Definition okResponse (body : Body) : Response :=
  mkResponse true 200 "OK" (Return (Some body)).

(** The unit [toggleUnit] switches to. *)
Definition otherUnit (u : UnitSystem) : UnitSystem :=
  match u with metric => imperial | imperial => metric end.

(** The events after which a request may have been sent. *)
Definition sends (e : Event) : nat :=
  match e with
  | Submitted | UnitToggled | Positioned _ _ _ => 1
  | _ => 0
  end.

(** A session: type a city, submit, and receive a success body with an
    empty condition list. *)
Definition colomboSession : list Event :=
  [Typed "Colombo"; Submitted;
   Settled 0 (Return responseWithoutConditions) 1700000000000].

Definition colomboSessionEnd : Config :=
  mkConfig
    (mkState (Some "Colombo"%string) (Some bodyWithoutConditions) false
       EmptyString (Some 1700000000000) metric)
    [] [CityRequest "Colombo" "key" metric].

(** A session without an API key: type a city, submit twice, toggle the
    unit. *)
Definition noKeySession : list Event :=
  [Typed "Colombo"; Submitted; Submitted; UnitToggled].

Definition noKeySessionEnd : Config :=
  mkConfig
    (mkState (Some "Colombo"%string) None false Msg.noApiKey None imperial)
    [] [].

(** The order Snow, Cloudy, Clear of the temperature bands. *)
Definition warmth (icon : Icon) : nat :=
  match icon with
  | snowIcon => 0
  | cloudyIcon => 1
  | _ => 2
  end.

(** HTTP 200 with a body that is not JSON. *)
Definition responseUnparsable : Response :=
  mkResponse true 200 "OK" (Throw "Unexpected token < in JSON"%string).





(** ** Comparisons with integer literals *)

Lemma ge_lit (c k : Z) : JS.ge (JS.lit c) (JS.lit k) = (k <=? c).
Proof.
  unfold JS.ge, JS.lit, Qle_bool; simpl. now rewrite !Z.mul_1_r.
Qed.

Lemma lt_lit (c k : Z) : JS.lt (JS.lit c) (JS.lit k) = (c <? k).
Proof.
  unfold JS.lt, JS.lit, Qle_bool; simpl.
  rewrite !Z.mul_1_r. now rewrite Z.ltb_antisym.
Qed.

Lemma strict_eq_lit (c k : Z) : JS.strict_eq (JS.lit c) (JS.lit k) = (c =? k).
Proof.
  unfold JS.strict_eq, JS.lit, Qeq_bool; simpl.
  now rewrite !Z.mul_1_r.
Qed.

Lemma lt_Fin_true (p : Q) (k : Z) :
  (p < inject_Z k)%Q -> JS.lt (JS.Fin p) (JS.lit k) = true.
Proof.
  intros H. unfold JS.lt, JS.lit.
  destruct (Qle_bool (inject_Z k) p) eqn:E; [|reflexivity].
  apply Qle_bool_iff in E. exfalso. apply (Qlt_not_le _ _ H E).
Qed.

Lemma lt_Fin_false (p : Q) (k : Z) :
  (inject_Z k <= p)%Q -> JS.lt (JS.Fin p) (JS.lit k) = false.
Proof.
  intros H. unfold JS.lt, JS.lit.
  apply Qle_bool_iff in H. now rewrite H.
Qed.

(** Settle every integer comparison the context decides. *)
Ltac settle_cmp :=
  repeat match goal with
  | |- context [?a <=? ?b] =>
    first [ replace (a <=? b) with true by (symmetry; apply Z.leb_le; lia)
          | replace (a <=? b) with false by (symmetry; apply Z.leb_gt; lia) ]
  | |- context [?a <? ?b] =>
    first [ replace (a <? b) with true by (symmetry; apply Z.ltb_lt; lia)
          | replace (a <? b) with false by (symmetry; apply Z.ltb_ge; lia) ]
  | |- context [?a =? ?b] =>
    first [ replace (a =? b) with true by (symmetry; apply Z.eqb_eq; lia)
          | replace (a =? b) with false by (symmetry; apply Z.eqb_neq; lia) ]
  end.

(** ** getWeatherIcon reads two properties *)

(** With a first condition and a [main] section, the icon is decided by
    [weather[0].id], [main.temp] and the unit. *)
Lemma getWeatherIcon_reads (wd : Body) (m : Main) (first : Condition)
    (rest : list Condition) (u : UnitSystem) :
  main wd = Some m ->
  weather wd = Some (first :: rest) ->
  getWeatherIcon (Some wd) u
  = Return (iconFor (JS.ToNumber (id first)) (JS.ToNumber (temp m)) u).
Proof.
  intros Hm Hw. unfold getWeatherIcon. now rewrite Hw, Hm.
Qed.

(** The integer-literal form of [iconFor] on an integer condition code. *)
Lemma iconFor_lit (c : Z) (t : JS.number) (u : UnitSystem) :
  iconFor (JS.lit c) t u =
  if (200 <=? c) && (c <? 300) then stormIcon
  else if ((300 <=? c) && (c <? 400)) || ((500 <=? c) && (c <? 600)) then
    if (c =? 502) || (c =? 503) || (c =? 504) || (c =? 522)
    then downpourIcon else rainyIcon
  else if (600 <=? c) && (c <? 700) then snowIcon
  else if (700 <=? c) && (c <? 800) then atmosphericIcon
  else if JS.lt t (freezing u) then snowIcon
  else if JS.lt t (cold u) then cloudyIcon
  else if JS.lt t (cool u) then cloudyIcon
  else if JS.lt t (warm u) then
    if c =? 800 then clearIcon else cloudyIcon
  else clearIcon.
Proof.
  unfold iconFor. now rewrite !ge_lit, !lt_lit, !strict_eq_lit.
Qed.

(** C1. For a condition code in a severe-weather family the icon depends
    on the code alone, whatever the temperature and the unit: [200,300)
    gives Storm; [300,400) and [500,600) give Downpour exactly for 502, 503,
    504 and 522 and Rainy otherwise; [600,700) gives Snow; [700,800) gives
    Atmospheric. *)
Theorem severe_code_decides_icon
    (wd : Body) (m : Main) (first : Condition) (rest : list Condition)
    (c : Z) (u : UnitSystem) :
  main wd = Some m ->
  weather wd = Some (first :: rest) ->
  id first = Some (JS.lit c) ->
  (200 <= c < 300 -> getWeatherIcon (Some wd) u = Return stormIcon) /\
  (300 <= c < 400 \/ 500 <= c < 600 ->
     (In c heavyRain -> getWeatherIcon (Some wd) u = Return downpourIcon) /\
     (~ In c heavyRain -> getWeatherIcon (Some wd) u = Return rainyIcon)) /\
  (600 <= c < 700 -> getWeatherIcon (Some wd) u = Return snowIcon) /\
  (700 <= c < 800 -> getWeatherIcon (Some wd) u = Return atmosphericIcon).
Proof.
  intros Hm Hw Hid.
  rewrite (getWeatherIcon_reads wd m first rest u Hm Hw), Hid.
  cbn [JS.ToNumber]. rewrite iconFor_lit. unfold heavyRain.
  repeat split; intros; cbn [In] in *;
    repeat match goal with
    | H : _ \/ _ |- _ => destruct H
    | H : False |- _ => destruct H
    end;
    try (exfalso; lia); settle_cmp; reflexivity.
Qed.

(** C1 at code 522 (heavy shower rain), 40 degrees Fahrenheit. *)
Lemma severe_code_decides_icon_witness :
  getWeatherIcon (Some (sampleBody (Some (JS.lit 522)) (Some (JS.lit 40))))
    imperial
  = Return downpourIcon.
Proof.
  refine (proj1 (proj1 (proj2
    (severe_code_decides_icon
       (sampleBody (Some (JS.lit 522)) (Some (JS.lit 40)))
       (sampleMain (Some (JS.lit 40)))
       (mkCondition (Some (JS.lit 522)) None) [] 522 imperial
       eq_refl eq_refl eq_refl)) _) _).
  - right; lia.
  - cbn; lia.
Defined.

(** Settle every comparison of a finite temperature with a literal that
    the context decides. *)
Ltac settle_lt :=
  repeat match goal with
  | |- context [JS.lt (JS.Fin ?t) (JS.lit ?k)] =>
    first [ rewrite (lt_Fin_true t k) by (unfold inject_Z in *; lra)
          | rewrite (lt_Fin_false t k) by (unfold inject_Z in *; lra) ]
  end.

(** C2. For a condition code of at least 800 the icon follows the
    temperature bands, with thresholds 0/10/15/25 (metric) or 32/50/59/77
    (imperial): below freezing Snow; from freezing up to cool Cloudy; from
    cool up to warm Clear exactly for code 800 and Cloudy otherwise; from
    warm on Clear. *)
Theorem clear_family_follows_temperature
    (wd : Body) (m : Main) (first : Condition) (rest : list Condition)
    (c : Z) (t : Q) (u : UnitSystem) (fz cd cl wm : Z) :
  main wd = Some m ->
  weather wd = Some (first :: rest) ->
  id first = Some (JS.lit c) ->
  temp m = Some (JS.Fin t) ->
  800 <= c ->
  specThresholds u = (fz, cd, cl, wm) ->
  (freezing u, cold u, cool u, warm u)
    = (JS.lit fz, JS.lit cd, JS.lit cl, JS.lit wm) /\
  ((t < inject_Z fz)%Q -> getWeatherIcon (Some wd) u = Return snowIcon) /\
  ((inject_Z fz <= t)%Q /\ (t < inject_Z cl)%Q ->
     getWeatherIcon (Some wd) u = Return cloudyIcon) /\
  ((inject_Z cl <= t)%Q /\ (t < inject_Z wm)%Q ->
     (c = 800 -> getWeatherIcon (Some wd) u = Return clearIcon) /\
     (c <> 800 -> getWeatherIcon (Some wd) u = Return cloudyIcon)) /\
  ((inject_Z wm <= t)%Q -> getWeatherIcon (Some wd) u = Return clearIcon).
Proof.
  intros Hm Hw Hid Ht Hc Hthr.
  rewrite (getWeatherIcon_reads wd m first rest u Hm Hw), Hid, Ht.
  cbn [JS.ToNumber]. rewrite iconFor_lit.
  destruct u; cbn in Hthr; injection Hthr as <- <- <- <-;
    cbn [freezing cold cool warm];
    (split; [reflexivity|]);
    repeat split; intros;
    repeat match goal with H : _ /\ _ |- _ => destruct H end;
    settle_cmp; cbn [andb orb]; settle_lt;
    try reflexivity;
    match goal with
    | |- context [JS.lt (JS.Fin ?t) (JS.lit ?k)] =>
      destruct (JS.lt (JS.Fin t) (JS.lit k)); reflexivity
    end.
Qed.

(** C2 at code 801 (few clouds), 20 degrees Celsius: the mild band, where
    only code 800 shows the sun. *)
Lemma clear_family_follows_temperature_witness :
  getWeatherIcon (Some (sampleBody (Some (JS.lit 801)) (Some (JS.Fin 20))))
    metric
  = Return cloudyIcon.
Proof.
  refine (proj2 (proj1 (proj2 (proj2 (proj2
    (clear_family_follows_temperature
       (sampleBody (Some (JS.lit 801)) (Some (JS.Fin 20)))
       (sampleMain (Some (JS.Fin 20)))
       (mkCondition (Some (JS.lit 801)) None) [] 801 20 metric 0 10 15 25
       eq_refl eq_refl eq_refl eq_refl _ eq_refl)))) _) _).
  - lia.
  - split; unfold inject_Z; lra.
  - lia.
Defined.

(** C9. At the warm boundary the two unit systems agree: code 800 at 77
    degrees Fahrenheit and code 800 at 25 degrees Celsius both give
    Clear. *)
Theorem warm_boundary_units_agree
    (wdF wdC : Body) (mF mC : Main) (firstF firstC : Condition)
    (restF restC : list Condition) :
  main wdF = Some mF -> weather wdF = Some (firstF :: restF) ->
  id firstF = Some (JS.lit 800) -> temp mF = Some (JS.lit 77) ->
  main wdC = Some mC -> weather wdC = Some (firstC :: restC) ->
  id firstC = Some (JS.lit 800) -> temp mC = Some (JS.lit 25) ->
  getWeatherIcon (Some wdF) imperial = getWeatherIcon (Some wdC) metric /\
  getWeatherIcon (Some wdC) metric = Return clearIcon.
Proof.
  intros HmF HwF HiF HtF HmC HwC HiC HtC.
  rewrite (getWeatherIcon_reads wdF mF firstF restF imperial HmF HwF).
  rewrite (getWeatherIcon_reads wdC mC firstC restC metric HmC HwC).
  rewrite HiF, HtF, HiC, HtC. split; reflexivity.
Qed.

Lemma warm_boundary_units_agree_witness :
  getWeatherIcon (Some (sampleBody (Some (JS.lit 800)) (Some (JS.lit 77))))
    imperial
  = getWeatherIcon (Some (sampleBody (Some (JS.lit 800)) (Some (JS.lit 25))))
      metric
  /\ getWeatherIcon (Some (sampleBody (Some (JS.lit 800)) (Some (JS.lit 25))))
       metric
     = Return clearIcon.
Proof.
  exact (warm_boundary_units_agree
           (sampleBody (Some (JS.lit 800)) (Some (JS.lit 77)))
           (sampleBody (Some (JS.lit 800)) (Some (JS.lit 25)))
           (sampleMain (Some (JS.lit 77))) (sampleMain (Some (JS.lit 25)))
           (mkCondition (Some (JS.lit 800)) None)
           (mkCondition (Some (JS.lit 800)) None) [] []
           eq_refl eq_refl eq_refl eq_refl eq_refl eq_refl eq_refl eq_refl).
Defined.

(** ** The specification's sample readings *)

Example clear_sky_mild :
  getWeatherIcon (Some (sampleBody (Some (JS.lit 800)) (Some (JS.Fin 20))))
    metric = Return clearIcon.
Proof. reflexivity. Qed.

Example clear_sky_below_freezing :
  getWeatherIcon (Some (sampleBody (Some (JS.lit 800)) (Some (JS.Fin (-5)))))
    metric = Return snowIcon.
Proof. reflexivity. Qed.

Example hot_thunderstorm :
  getWeatherIcon (Some (sampleBody (Some (JS.lit 211)) (Some (JS.Fin 95))))
    imperial = Return stormIcon.
Proof. reflexivity. Qed.

Example light_drizzle :
  getWeatherIcon (Some (sampleBody (Some (JS.lit 301)) (Some (JS.Fin 12.5))))
    metric = Return rainyIcon.
Proof. reflexivity. Qed.

(** A [main] section without [temp]: every comparison with NaN is false,
    and the last [return] is reached. *)
Example clouds_without_temperature :
  getWeatherIcon (Some (sampleBody (Some (JS.lit 804)) None)) metric
  = Return clearIcon.
Proof. reflexivity. Qed.

(** ** Totality of getWeatherIcon *)

(** C3, as stated, fails: a listed condition with a missing [main] section
    makes [getWeatherIcon] throw, and a condition entry without an [id] at
    30 degrees Celsius gives Clear, not Cloudy. *)
Lemma getWeatherIcon_not_total_nor_cloudy_by_default :
  getWeatherIcon (Some bodyWithoutMain) metric = Throw CannotReadProperty /\
  getWeatherIcon (Some (sampleBody None (Some (JS.lit 30)))) metric
  = Return clearIcon.
Proof.
  split; reflexivity.
Qed.

(** C3, amended. [getWeatherIcon] is a function of its two arguments; it
    returns Cloudy whenever the weather data is absent or its condition
    list is missing or empty, also without a [main] section; it returns an
    icon whenever the [main] section is present; and it fails only for a
    listed condition without a [main] section (a body the validation of
    the fetch paths rejects, see [validated_body_has_icon]). *)
Theorem getWeatherIcon_total_with_main
    (weatherData : option Body) (u : UnitSystem) :
  (conditionsMissing weatherData = true ->
     getWeatherIcon weatherData u = Return cloudyIcon) /\
  (forall wd m, weatherData = Some wd -> main wd = Some m ->
     exists icon, getWeatherIcon weatherData u = Return icon) /\
  (forall e, getWeatherIcon weatherData u = Throw e ->
     exists wd, weatherData = Some wd /\ main wd = None /\
                conditionsMissing weatherData = false).
Proof.
  unfold getWeatherIcon, conditionsMissing.
  destruct weatherData as [wd|]; [|repeat split; intros; try discriminate;
                                   eauto].
  destruct (weather wd) as [[|first rest]|] eqn:Hw; cbn [nth_error].
  - repeat split; intros; try discriminate; eauto.
  - split; [discriminate|]. split.
    + intros wd' m [= <-] Hm. rewrite Hm. cbn. eauto.
    + intros e He. exists wd. destruct (main wd); [discriminate|]. auto.
  - repeat split; intros; try discriminate; eauto.
Qed.

(** C3, amended, at a body with an empty condition list and no [main]. *)
Lemma getWeatherIcon_total_with_main_witness :
  getWeatherIcon (Some (mkBody None None (Some []) None None)) imperial
  = Return cloudyIcon.
Proof.
  exact (proj1 (getWeatherIcon_total_with_main
                  (Some (mkBody None None (Some []) None None)) imperial)
           eq_refl).
Defined.

(** ** Stored data *)

Lemma validate_Return (parsed : option Body) (body : Body) :
  validate parsed = Return body <->
  parsed = Some body /\ main body <> None /\ weather body <> None.
Proof.
  unfold validate. split.
  - destruct parsed as [b|]; [|discriminate].
    destruct (main b) eqn:Hm, (weather b) eqn:Hw; try discriminate.
    intros [= <-]. rewrite Hm, Hw. repeat split; discriminate.
  - intros (-> & Hm & Hw).
    destruct (main body), (weather body); congruence.
Qed.

Lemma validate_Throw (parsed : option Body) (msg : string) :
  validate parsed = Throw msg -> msg = Msg.invalidResponse.
Proof.
  unfold validate. destruct parsed as [b|]; [|congruence].
  destruct (main b), (weather b); congruence.
Qed.

(** With a [main] section [getWeatherIcon] returns. *)
Lemma getWeatherIcon_returns_with_main (wd : Body) (m : Main)
    (u : UnitSystem) :
  main wd = Some m -> exists icon, getWeatherIcon (Some wd) u = Return icon.
Proof.
  intros Hm. unfold getWeatherIcon. rewrite Hm.
  destruct (weather wd) as [[|first rest]|]; cbn; eauto.
Qed.

(** A body that passed the validation never makes [getWeatherIcon]
    throw. *)
Lemma validated_body_has_icon (parsed : option Body) (body : Body)
    (u : UnitSystem) :
  validate parsed = Return body ->
  exists icon, getWeatherIcon (Some body) u = Return icon.
Proof.
  intros H. apply validate_Return in H as (_ & Hm & _).
  destruct (main body) as [m|] eqn:E; [|contradiction].
  exact (getWeatherIcon_returns_with_main body m u E).
Qed.

(** ** Validation of a success body *)

(** C4, as stated, fails: a success body with a [main] section and an
    empty condition list is accepted on both paths, with no error; and a
    success response whose body is not JSON fails with the parser's
    message, which is not the MalformedResponse text. *)
Lemma empty_condition_list_is_accepted :
  fetchWeatherWithUnit "key" "null has no properties" "Colombo" metric
    (Return responseWithoutConditions) 1700000000000 initialState
  = (mkState (Some EmptyString) (Some bodyWithoutConditions) false
       EmptyString (Some 1700000000000) metric,
     [CityRequest "Colombo" "key" metric]) /\
  onPosition_resume "null has no properties"
    (Return responseWithoutConditions) 1700000000000 initialState
  = mkState (Some "Colombo"%string) (Some bodyWithoutConditions) false
      EmptyString (Some 1700000000000) metric /\
  fetchWeatherWithUnit "key" "null has no properties" "Colombo" metric
    (Return responseUnparsable) 1700000000000 initialState
  = (mkState (Some EmptyString) None false "Unexpected token < in JSON"
       None metric,
     [CityRequest "Colombo" "key" metric]) /\
  "Unexpected token < in JSON"%string <> errorMessage MalformedResponse.
Proof.
  repeat split; try reflexivity. discriminate.
Qed.

(** C4, amended. On a response whose HTTP status is success, on both
    fetch paths: if the body does not parse, the fetch fails with the
    parser's message (the path's fallback text when that message is empty)
    and stores no result; if the body parses and is null or lacks the
    [main] section or the [weather] list, the fetch fails with
    MalformedResponse and stores no result; otherwise, an empty [weather]
    list included, the body is stored as the new result with the capture
    time. *)
Theorem success_body_validation
    (nullMsg : string) (res : Response) (now : Date) (s : State) :
  ok res = true ->
  let sCity := fetchWeatherWithUnit_resume nullMsg (Return res) now s in
  let sGeo := onPosition_resume nullMsg (Return res) now s in
  (forall msg, json res = Throw msg ->
     (error sCity = JS.or_else (Some msg) Msg.fetchFailed /\
      data sCity = data s /\ fetchTime sCity = fetchTime s) /\
     (error sGeo = JS.or_else (Some msg) Msg.geoFetchFailed /\
      data sGeo = data s /\ fetchTime sGeo = fetchTime s)) /\
  (forall parsed, json res = Return parsed ->
     (parsed = None \/
      (exists body, parsed = Some body /\
                    (main body = None \/ weather body = None)) ->
        (error sCity = errorMessage MalformedResponse /\
         data sCity = data s /\ fetchTime sCity = fetchTime s) /\
        (error sGeo = errorMessage MalformedResponse /\
         data sGeo = data s /\ fetchTime sGeo = fetchTime s)) /\
     (forall body, parsed = Some body ->
        main body <> None -> weather body <> None ->
        (data sCity = Some body /\ fetchTime sCity = Some now /\
         error sCity = error s) /\
        (data sGeo = Some body /\ fetchTime sGeo = Some now /\
         error sGeo = error s /\ query sGeo = name body))).
Proof.
  intros Hok sCity sGeo. subst sCity sGeo.
  unfold fetchWeatherWithUnit_resume, onPosition_resume, cityTry, positionTry.
  cbn [bind]. rewrite Hok. cbn [negb]. split.
  - intros msg Hjson. rewrite Hjson. cbn. auto.
  - intros parsed Hjson. rewrite Hjson. cbn [bind]. split.
    + intros Hbad.
      assert (Hv : validate parsed = Throw Msg.invalidResponse).
      { unfold validate.
        destruct Hbad as [->|(body & -> & [Hm|Hw])]; [reflexivity| |].
        - now rewrite Hm.
        - rewrite Hw. now destruct (main body). }
      rewrite Hv. cbn. auto.
    + intros body -> Hm Hw.
      assert (Hv : validate (Some body) = Return body).
      { apply validate_Return. auto. }
      rewrite Hv. cbn. auto.
Qed.

(** C4, amended, at HTTP 200 with the body [{}]. *)
Lemma success_body_validation_witness :
  error (fetchWeatherWithUnit_resume "null has no properties"
           (Return (mkResponse true 200 "OK" (Return (Some empty_object))))
           1700000000000 initialState)
  = errorMessage MalformedResponse.
Proof.
  refine (proj1 (proj1 (proj1 (proj2
    (success_body_validation "null has no properties"
       (mkResponse true 200 "OK" (Return (Some empty_object)))
       1700000000000 initialState eq_refl) (Some empty_object) eq_refl) _))).
  right. exists empty_object. split; [reflexivity|]. left; reflexivity.
Defined.

(** ** The API key precondition *)

(** Without an API key the city path sets the error and sends nothing. *)
Lemma city_fetch_requires_key (nullMsg city : string) (u : UnitSystem)
    (outcome : FetchOutcome) (now : Date) (s : State) :
  fetchWeatherWithUnit EmptyString nullMsg city u outcome now s
  = (setError (errorMessage MissingCredential) s, []).
Proof.
  reflexivity.
Qed.

(** C5 on the geolocation path, without an API key: the click sets no
    error, and the position callback sends a request with an empty
    [appid]. *)
Theorem geolocation_fetch_skips_key_check
    (s : State) (latitude longitude : JS.number) :
  getCurrentLocationWeather true s
  = (setError EmptyString (setLoading true s), Some (unit s)) /\
  onPosition_start EmptyString (unit s) latitude longitude
  = [CoordsRequest latitude longitude EmptyString (unit s)].
Proof.
  split; reflexivity.
Qed.

(** ** Starting a fetch *)


(** C6 on the geolocation path, while Colombo's weather is shown: the
    request shows the loading state and clears the error, and the shown
    result stays in [data]. *)
Theorem geolocation_start_keeps_data :
  getCurrentLocationWeather true showingColombo
  = (mkState (Some "Colombo"%string)
       (Some (sampleBody (Some (JS.lit 800)) (Some (JS.lit 30))))
       true EmptyString (Some 1700000000000) metric,
     Some metric).
Proof.
  reflexivity.
Qed.

(** On every state the geolocation request leaves [data] as it was. *)
Lemma geolocation_start_frame (geo : bool) (s : State) :
  data (fst (getCurrentLocationWeather geo s)) = data s.
Proof.
  unfold getCurrentLocationWeather. now destruct geo.
Qed.

(** ** Classification of a non-success response *)

Lemma or_else_truthy (a : option string) (b : string) :
  JS.truthy b = true -> JS.truthy (JS.or_else a b) = true.
Proof.
  intros Hb. unfold JS.or_else. destruct a as [x|]; [|exact Hb].
  destruct (JS.truthy x) eqn:E; assumption.
Qed.

Lemma or_else_Some_truthy (msg fallback : string) :
  JS.truthy msg = true -> JS.or_else (Some msg) fallback = msg.
Proof.
  intros H. unfold JS.or_else. now rewrite H.
Qed.

(** On the city path a non-success response whose error body is an object
    (or does not parse) shows the message of its class. *)
Lemma city_errors_classified (nullMsg : string) (res : Response)
    (errorData : Body) (now : Date) (s : State) :
  ok res = false ->
  errorDataOf res = Some errorData ->
  fetchWeatherWithUnit_resume nullMsg (Return res) now s
  = setLoading false (setError (errorMessage (classify res errorData)) s).
Proof.
  intros Hok Hed.
  unfold fetchWeatherWithUnit_resume, cityTry, classify. cbn [bind].
  rewrite Hok, Hed. cbn [negb deref bind].
  destruct (status res =? 401); [reflexivity|].
  destruct (status res =? 404); [reflexivity|].
  destruct (status res =? 429); [reflexivity|].
  destruct (isServiceError errorData); [reflexivity|].
  cbn [errorMessage]. rewrite or_else_Some_truthy; [reflexivity|].
  apply or_else_truthy. reflexivity.
Qed.

(** C7 on the geolocation path, at HTTP 401 with a body that is not JSON:
    the message shown is the raw status, where the city path shows the
    Unauthorized message. *)
Theorem geolocation_401_not_classified
    (nullMsg : string) (now : Date) (s : State) :
  error (onPosition_resume nullMsg (Return response401) now s)
  = "Error: 401"%string /\
  error (fetchWeatherWithUnit_resume nullMsg (Return response401) now s)
  = errorMessage Unauthorized.
Proof.
  split; reflexivity.
Qed.

(** ** Toggling the unit *)




(** ** A failed city fetch *)

(** A completion with an error writes [error] and [loading] only. *)
Lemma city_fetch_failure_frame (nullMsg : string) (outcome : FetchOutcome)
    (now : Date) (s : State) (msg : string) :
  cityTry nullMsg outcome = Throw msg ->
  fetchWeatherWithUnit_resume nullMsg outcome now s
  = setLoading false (setError (JS.or_else (Some msg) Msg.fetchFailed) s).
Proof.
  intros H. unfold fetchWeatherWithUnit_resume. now rewrite H.
Qed.




(** ** Condition codes that are not integers *)

Lemma ge_Fin_true (q : Q) (k : Z) :
  (inject_Z k <= q)%Q -> JS.ge (JS.Fin q) (JS.lit k) = true.
Proof.
  intros H. unfold JS.ge, JS.lit. now apply Qle_bool_iff.
Qed.

Lemma ge_Fin_false (q : Q) (k : Z) :
  (q < inject_Z k)%Q -> JS.ge (JS.Fin q) (JS.lit k) = false.
Proof.
  intros H. unfold JS.ge, JS.lit.
  destruct (Qle_bool (inject_Z k) q) eqn:E; [|reflexivity].
  apply Qle_bool_iff in E. exfalso. apply (Qlt_not_le _ _ H E).
Qed.

Lemma strict_eq_Fin_false (q : Q) (k : Z) :
  ~ (q == inject_Z k)%Q -> JS.strict_eq (JS.Fin q) (JS.lit k) = false.
Proof.
  intros H. unfold JS.strict_eq, JS.lit.
  destruct (Qeq_bool q (inject_Z k)) eqn:E; [|reflexivity].
  apply Qeq_bool_iff in E. contradiction.
Qed.

Lemma strict_eq_Fin_true (q : Q) (k : Z) :
  (q == inject_Z k)%Q -> JS.strict_eq (JS.Fin q) (JS.lit k) = true.
Proof.
  intros H. unfold JS.strict_eq, JS.lit. now apply Qeq_bool_iff.
Qed.

(** Settle every test of a finite condition code that the context
    decides. *)
Ltac settle_code :=
  repeat match goal with
  | |- context [JS.ge (JS.Fin ?q) (JS.lit ?k)] =>
    first [ rewrite (ge_Fin_true q k) by (unfold inject_Z in *; lra)
          | rewrite (ge_Fin_false q k) by (unfold inject_Z in *; lra) ]
  | |- context [JS.lt (JS.Fin ?q) (JS.lit ?k)] =>
    first [ rewrite (lt_Fin_true q k) by (unfold inject_Z in *; lra)
          | rewrite (lt_Fin_false q k) by (unfold inject_Z in *; lra) ]
  | |- context [JS.strict_eq (JS.Fin ?q) (JS.lit ?k)] =>
    rewrite (strict_eq_Fin_false q k) by (unfold inject_Z in *; lra)
  end.

Lemma codeIn_Fin (q : Q) (lo hi : Z) :
  codeIn (JS.Fin q) lo hi <-> (inject_Z lo <= q)%Q /\ (q < inject_Z hi)%Q.
Proof.
  unfold codeIn. split.
  - intros (q' & [= ->] & H). exact H.
  - intros H. exists q. auto.
Qed.

(** The families split the finite codes into eight segments. *)
Lemma code_segments (q : Q) :
  (q < 200 \/ codeIn (JS.Fin q) 200 300 \/ codeIn (JS.Fin q) 300 400 \/
   codeIn (JS.Fin q) 400 500 \/ codeIn (JS.Fin q) 500 600 \/
   codeIn (JS.Fin q) 600 700 \/ codeIn (JS.Fin q) 700 800 \/ 800 <= q)%Q.
Proof.
  rewrite !codeIn_Fin. unfold inject_Z.
  destruct (Qlt_le_dec q 200); [lra|].
  destruct (Qlt_le_dec q 300); [lra|].
  destruct (Qlt_le_dec q 400); [lra|].
  destruct (Qlt_le_dec q 500); [lra|].
  destruct (Qlt_le_dec q 600); [lra|].
  destruct (Qlt_le_dec q 700); [lra|].
  destruct (Qlt_le_dec q 800); lra.
Qed.

Lemma iconFor_storm (n t : JS.number) (u : UnitSystem) :
  codeIn n 200 300 -> iconFor n t u = stormIcon.
Proof.
  intros (q & -> & Hlo & Hhi). unfold iconFor. now settle_code.
Qed.

Lemma iconFor_snow (n t : JS.number) (u : UnitSystem) :
  codeIn n 600 700 -> iconFor n t u = snowIcon.
Proof.
  intros (q & -> & Hlo & Hhi). unfold iconFor. now settle_code.
Qed.

Lemma iconFor_atmospheric (n t : JS.number) (u : UnitSystem) :
  codeIn n 700 800 -> iconFor n t u = atmosphericIcon.
Proof.
  intros (q & -> & Hlo & Hhi). unfold iconFor. now settle_code.
Qed.

Lemma iconFor_drizzle (n t : JS.number) (u : UnitSystem) :
  codeIn n 300 400 -> iconFor n t u = rainyIcon.
Proof.
  intros (q & -> & Hlo & Hhi). unfold iconFor. now settle_code.
Qed.

Lemma iconFor_rain (q : Q) (t : JS.number) (u : UnitSystem) :
  codeIn (JS.Fin q) 500 600 ->
  iconFor (JS.Fin q) t u =
  if Qeq_bool q 502 || Qeq_bool q 503 || Qeq_bool q 504 || Qeq_bool q 522
  then downpourIcon else rainyIcon.
Proof.
  intros H. apply codeIn_Fin in H as [Hlo Hhi]. unfold iconFor.
  rewrite (ge_Fin_true q 200), (lt_Fin_false q 300),
          (ge_Fin_true q 300), (lt_Fin_false q 400),
          (ge_Fin_true q 500), (lt_Fin_true q 600)
    by (unfold inject_Z in *; lra).
  reflexivity.
Qed.

(** Outside the five tested ranges the temperature decides. *)
Lemma iconFor_not_severe (n t : JS.number) (u : UnitSystem) :
  ~ severe n ->
  iconFor n t u = tempIcon (JS.strict_eq n (JS.lit 800)) t u.
Proof.
  intros Hns. destruct n as [| |q|]; try reflexivity.
  unfold severe in Hns. rewrite !codeIn_Fin in Hns.
  destruct (code_segments q) as [H|[H|[H|[H|[H|[H|[H|H]]]]]]];
    try rewrite codeIn_Fin in H;
    try (exfalso; apply Hns; tauto);
    unfold iconFor, tempIcon;
    rewrite ?(ge_Fin_true q 200), ?(ge_Fin_false q 200),
            ?(lt_Fin_true q 300), ?(lt_Fin_false q 300),
            ?(ge_Fin_true q 300), ?(ge_Fin_false q 300),
            ?(lt_Fin_true q 400), ?(lt_Fin_false q 400),
            ?(ge_Fin_true q 500), ?(ge_Fin_false q 500),
            ?(lt_Fin_true q 600), ?(lt_Fin_false q 600),
            ?(ge_Fin_true q 600), ?(ge_Fin_false q 600),
            ?(lt_Fin_true q 700), ?(lt_Fin_false q 700),
            ?(ge_Fin_true q 700), ?(ge_Fin_false q 700),
            ?(lt_Fin_true q 800), ?(lt_Fin_false q 800)
      by (unfold inject_Z in *; lra);
    reflexivity.
Qed.

Lemma tempIcon_range (b : bool) (t : JS.number) (u : UnitSystem) :
  tempIcon b t u = snowIcon \/ tempIcon b t u = cloudyIcon \/
  tempIcon b t u = clearIcon.
Proof.
  unfold tempIcon.
  destruct (JS.lt t (freezing u)), (JS.lt t (cold u)), (JS.lt t (cool u)),
           (JS.lt t (warm u)), b; auto.
Qed.

(** ** The icon and the unit system *)

Lemma lt_toFahrenheit (t : Q) (c f : Z) :
  (inject_Z f == toFahrenheit (inject_Z c))%Q ->
  JS.lt (JS.Fin t) (JS.lit c) = JS.lt (JS.Fin (toFahrenheit t)) (JS.lit f).
Proof.
  intros Hf. unfold JS.lt, JS.lit. f_equal.
  apply eq_true_iff_eq. rewrite !Qle_bool_iff, Hf.
  unfold toFahrenheit. split; intros H; lra.
Qed.

Lemma tempIcon_toFahrenheit (b : bool) (t : Q) :
  tempIcon b (JS.Fin t) metric = tempIcon b (JS.Fin (toFahrenheit t)) imperial.
Proof.
  unfold tempIcon. cbn [freezing cold cool warm].
  rewrite (lt_toFahrenheit t 0 32), (lt_toFahrenheit t 10 50),
          (lt_toFahrenheit t 15 59), (lt_toFahrenheit t 25 77)
    by (unfold toFahrenheit, inject_Z; lra).
  reflexivity.
Qed.

Lemma iconFor_toFahrenheit (n : JS.number) (t : Q) :
  iconFor n (JS.Fin t) metric = iconFor n (JS.Fin (toFahrenheit t)) imperial.
Proof.
  unfold iconFor. cbn [freezing cold cool warm].
  rewrite (lt_toFahrenheit t 0 32), (lt_toFahrenheit t 10 50),
          (lt_toFahrenheit t 15 59), (lt_toFahrenheit t 25 77)
    by (unfold toFahrenheit, inject_Z; lra).
  reflexivity.
Qed.

(** X1. The icon does not depend on the unit system of the reading: a
    body with a temperature in Celsius, read as metric, and a body with the
    same condition and that temperature converted to Fahrenheit, read as
    imperial, get the same icon. *)
Theorem icon_invariant_under_unit_conversion
    (wdC wdF : Body) (mC mF : Main) (firstC firstF : Condition)
    (restC restF : list Condition) (t : Q) :
  main wdC = Some mC -> weather wdC = Some (firstC :: restC) ->
  main wdF = Some mF -> weather wdF = Some (firstF :: restF) ->
  id firstC = id firstF ->
  temp mC = Some (JS.Fin t) ->
  temp mF = Some (JS.Fin (toFahrenheit t)) ->
  getWeatherIcon (Some wdC) metric = getWeatherIcon (Some wdF) imperial.
Proof.
  intros HmC HwC HmF HwF Hid HtC HtF.
  rewrite (getWeatherIcon_reads wdC mC firstC restC metric HmC HwC).
  rewrite (getWeatherIcon_reads wdF mF firstF restF imperial HmF HwF).
  rewrite Hid, HtC, HtF. cbn [JS.ToNumber].
  now rewrite iconFor_toFahrenheit.
Qed.

(** X1 at broken clouds, 18.5 degrees Celsius and 65.3 degrees
    Fahrenheit. *)
Lemma icon_invariant_under_unit_conversion_witness :
  getWeatherIcon
    (Some (sampleBody (Some (JS.lit 803)) (Some (JS.Fin 18.5)))) metric
  = getWeatherIcon
      (Some (sampleBody (Some (JS.lit 803))
               (Some (JS.Fin (toFahrenheit 18.5))))) imperial.
Proof.
  exact (icon_invariant_under_unit_conversion
           (sampleBody (Some (JS.lit 803)) (Some (JS.Fin 18.5)))
           (sampleBody (Some (JS.lit 803))
              (Some (JS.Fin (toFahrenheit 18.5))))
           (sampleMain (Some (JS.Fin 18.5)))
           (sampleMain (Some (JS.Fin (toFahrenheit 18.5))))
           (mkCondition (Some (JS.lit 803)) None)
           (mkCondition (Some (JS.lit 803)) None) [] [] 18.5
           eq_refl eq_refl eq_refl eq_refl eq_refl eq_refl eq_refl).
Defined.

(** ** Which codes give which icon *)

Lemma heavy_in_rain (n : JS.number) : heavy n -> codeIn n 500 600.
Proof.
  intros (q & -> & H). apply codeIn_Fin. unfold inject_Z.
  destruct H as [H|[H|[H|H]]]; rewrite H; split; lra.
Qed.

Lemma heavy_test (q : Q) :
  Qeq_bool q 502 || Qeq_bool q 503 || Qeq_bool q 504 || Qeq_bool q 522 = true
  <-> heavy (JS.Fin q).
Proof.
  rewrite !orb_true_iff, !Qeq_bool_iff. unfold heavy. split.
  - intros H. exists q. split; [reflexivity|tauto].
  - intros (q' & [= <-] & H). tauto.
Qed.

(** Close the equivalences between a decided icon and range conditions
    on a finite code. *)
Ltac settle_iffs :=
  repeat split; intros;
  repeat match goal with
  | H : heavy (JS.Fin _) |- _ => destruct H as (? & [= <-] & ?)
  | H : _ /\ _ |- _ => destruct H
  | H : _ \/ _ |- _ => destruct H
  end;
  try discriminate; try lra; try tauto.

(** X2. For a body with a [main] section and a first condition, whatever
    the temperature and the unit: the icon is Storm exactly for a code in
    [200,300), Atmospheric exactly for a code in [700,800), Downpour
    exactly for the codes 502, 503, 504 and 522, and Rainy exactly for the
    other codes of [300,400) and [500,600); fractional codes included. *)
Theorem weather_icons_only_from_codes
    (wd : Body) (m : Main) (first : Condition) (rest : list Condition)
    (u : UnitSystem) :
  main wd = Some m ->
  weather wd = Some (first :: rest) ->
  let n := JS.ToNumber (id first) in
  (getWeatherIcon (Some wd) u = Return stormIcon <-> codeIn n 200 300) /\
  (getWeatherIcon (Some wd) u = Return atmosphericIcon <-> codeIn n 700 800) /\
  (getWeatherIcon (Some wd) u = Return downpourIcon <-> heavy n) /\
  (getWeatherIcon (Some wd) u = Return rainyIcon <->
     (codeIn n 300 400 \/ codeIn n 500 600) /\ ~ heavy n).
Proof.
  intros Hm Hw n.
  rewrite (getWeatherIcon_reads wd m first rest u Hm Hw). fold n.
  set (t := JS.ToNumber (temp m)).
  assert (Hsev : severe n \/ ~ severe n).
  { unfold severe. destruct n as [| |q|];
      try (right; intros [H|[H|[H|[H|H]]]]; destruct H as (? & ? & _);
           discriminate).
    rewrite !codeIn_Fin.
    destruct (code_segments q) as [H|[H|[H|[H|[H|[H|[H|H]]]]]]];
      try rewrite codeIn_Fin in H; unfold inject_Z in *;
      solve [ left; tauto | right; lra ]. }
  destruct Hsev as [[H|[H|[H|[H|H]]]]|Hns].
  - rewrite (iconFor_storm n t u H).
    destruct H as (q & Hq & Hlo & Hhi). rewrite Hq.
    rewrite !codeIn_Fin. unfold inject_Z in *. settle_iffs.
  - rewrite (iconFor_drizzle n t u H).
    destruct H as (q & Hq & Hlo & Hhi). rewrite Hq.
    rewrite !codeIn_Fin. unfold inject_Z in *. settle_iffs.
    intros Hy. settle_iffs.
  - destruct H as (q & Hq & Hlo & Hhi). rewrite Hq.
    rewrite (iconFor_rain q t u) by (apply codeIn_Fin; auto).
    pose proof (heavy_test q) as Hh.
    destruct (Qeq_bool q 502 || Qeq_bool q 503 || Qeq_bool q 504
              || Qeq_bool q 522).
    + assert (Hy : heavy (JS.Fin q)) by (now apply Hh).
      rewrite !codeIn_Fin. unfold inject_Z in *.
      repeat split; intros; try discriminate; try tauto; try lra.
    + assert (Hn : ~ heavy (JS.Fin q)).
      { intros Hy. apply Hh in Hy. discriminate. }
      rewrite !codeIn_Fin. unfold inject_Z in *.
      repeat split; intros; try discriminate; try tauto; try lra.
  - rewrite (iconFor_snow n t u H).
    destruct H as (q & Hq & Hlo & Hhi). rewrite Hq.
    rewrite !codeIn_Fin. unfold inject_Z in *. settle_iffs.
  - rewrite (iconFor_atmospheric n t u H).
    destruct H as (q & Hq & Hlo & Hhi). rewrite Hq.
    rewrite !codeIn_Fin. unfold inject_Z in *. settle_iffs.
  - rewrite (iconFor_not_severe n t u Hns).
    assert (Hnh : ~ heavy n).
    { intros Hy. apply Hns. right. right. left. now apply heavy_in_rain. }
    pose proof (tempIcon_range (JS.strict_eq n (JS.lit 800)) t u) as Hr.
    unfold severe in Hns.
    repeat split; intros; try tauto;
      try (destruct Hr as [Hr|[Hr|Hr]]; congruence).
Qed.

(** X2 at a hot thunderstorm: 95 degrees Fahrenheit, code 211. *)
Lemma weather_icons_only_from_codes_witness :
  getWeatherIcon
    (Some (sampleBody (Some (JS.lit 211)) (Some (JS.Fin 95)))) imperial
  = Return stormIcon.
Proof.
  apply (proj1 (weather_icons_only_from_codes
                  (sampleBody (Some (JS.lit 211)) (Some (JS.Fin 95)))
                  (sampleMain (Some (JS.Fin 95)))
                  (mkCondition (Some (JS.lit 211)) None) [] imperial
                  eq_refl eq_refl)).
  apply codeIn_Fin. unfold inject_Z. split; lra.
Defined.

(** ** Codes outside the tested ranges *)

Lemma not_severe_unmatched (q : Q) :
  (q < 200 \/ (400 <= q /\ q < 500) \/ 800 <= q)%Q -> ~ severe (JS.Fin q).
Proof.
  intros H. unfold severe. rewrite !codeIn_Fin. unfold inject_Z. lra.
Qed.

Lemma not_severe_NaN : ~ severe JS.NaN.
Proof.
  intros [H|[H|[H|[H|H]]]]; destruct H as (? & ? & _); discriminate.
Qed.

(** X3. A first condition without an [id], or with a code below 200, in
    [400,500) or above 800, is handled like code 801 (few clouds): with the
    same temperature and unit the icon is the same. *)
Theorem unmatched_code_shows_as_few_clouds
    (wd wd' : Body) (m m' : Main) (first first' : Condition)
    (rest rest' : list Condition) (u : UnitSystem) :
  main wd = Some m -> weather wd = Some (first :: rest) ->
  main wd' = Some m' -> weather wd' = Some (first' :: rest') ->
  temp m = temp m' ->
  id first' = Some (JS.lit 801) ->
  (id first = None \/
   exists q, id first = Some (JS.Fin q) /\
             (q < 200 \/ (400 <= q /\ q < 500) \/ 800 < q)%Q) ->
  getWeatherIcon (Some wd) u = getWeatherIcon (Some wd') u.
Proof.
  intros Hm Hw Hm' Hw' Ht Hid' Hid.
  rewrite (getWeatherIcon_reads wd m first rest u Hm Hw).
  rewrite (getWeatherIcon_reads wd' m' first' rest' u Hm' Hw').
  rewrite Ht, Hid'. cbn [JS.ToNumber]. f_equal.
  rewrite (iconFor_not_severe (JS.lit 801))
    by (apply not_severe_unmatched; unfold inject_Z; lra).
  destruct Hid as [->|(q & -> & Hq)]; cbn [JS.ToNumber].
  - now rewrite (iconFor_not_severe JS.NaN) by exact not_severe_NaN.
  - rewrite (iconFor_not_severe (JS.Fin q)) by (apply not_severe_unmatched; lra).
    rewrite (strict_eq_Fin_false q 800) by (unfold inject_Z; lra).
    reflexivity.
Qed.

(** X3 at a condition without an [id], 20 degrees Celsius. *)
Lemma unmatched_code_shows_as_few_clouds_witness :
  getWeatherIcon (Some (sampleBody None (Some (JS.Fin 20)))) metric
  = getWeatherIcon
      (Some (sampleBody (Some (JS.lit 801)) (Some (JS.Fin 20)))) metric.
Proof.
  exact (unmatched_code_shows_as_few_clouds
           (sampleBody None (Some (JS.Fin 20)))
           (sampleBody (Some (JS.lit 801)) (Some (JS.Fin 20)))
           (sampleMain (Some (JS.Fin 20))) (sampleMain (Some (JS.Fin 20)))
           (mkCondition None None) (mkCondition (Some (JS.lit 801)) None)
           [] [] metric
           eq_refl eq_refl eq_refl eq_refl eq_refl eq_refl
           (or_introl eq_refl)).
Defined.

(** X4. A [main] section without [temp] never shows Snow or Cloudy from
    the temperature bands: unless the code is in one of the tested ranges,
    the icon is Clear, in both units. *)
Theorem missing_temperature_shows_clear
    (wd : Body) (m : Main) (first : Condition) (rest : list Condition)
    (u : UnitSystem) :
  main wd = Some m -> weather wd = Some (first :: rest) ->
  temp m = None ->
  ~ severe (JS.ToNumber (id first)) ->
  getWeatherIcon (Some wd) u = Return clearIcon.
Proof.
  intros Hm Hw Ht Hns.
  rewrite (getWeatherIcon_reads wd m first rest u Hm Hw), Ht.
  rewrite (iconFor_not_severe _ _ u Hns). now destruct u.
Qed.

(** X4 at overcast clouds (804) without a temperature. *)
Lemma missing_temperature_shows_clear_witness :
  getWeatherIcon (Some (sampleBody (Some (JS.lit 804)) None)) imperial
  = Return clearIcon.
Proof.
  apply (missing_temperature_shows_clear
           (sampleBody (Some (JS.lit 804)) None) (sampleMain None)
           (mkCondition (Some (JS.lit 804)) None) [] imperial
           eq_refl eq_refl eq_refl).
  apply not_severe_unmatched. unfold inject_Z. lra.
Defined.

(** ** What the handlers send *)

Lemma start_cases (key city : string) (u : UnitSystem) (s : State) :
  (JS.truthy key = false /\
   fetchWeatherWithUnit_start key city u s = (setError Msg.noApiKey s, []))
  \/
  (JS.truthy key = true /\
   fetchWeatherWithUnit_start key city u s
   = (mkState (query s) None true EmptyString (fetchTime s) (unit s),
      [CityRequest city key u])).
Proof.
  unfold fetchWeatherWithUnit_start.
  destruct (JS.truthy key); [right|left]; split; reflexivity.
Qed.

Lemma onSubmit_cases (key : string) (s : State) :
  (JS.truthy_opt (query s) = false /\ onSubmit key s = (s, [])) \/
  (exists q, query s = Some q /\ JS.truthy q = true /\
             onSubmit key s = fetchWeatherWithUnit_start key q (unit s) s).
Proof.
  unfold onSubmit, fetchWeather.
  destruct (query s) as [q|]; [|left; split; reflexivity].
  cbn [JS.truthy_opt]. destruct (JS.truthy q) eqn:E.
  - right. exists q. auto.
  - left. split; reflexivity.
Qed.

Lemma toggleUnit_cases (key : string) (s : State) :
  ((data s = None \/ JS.truthy_opt (query s) = false) /\
   toggleUnit key s = (setUnit (otherUnit (unit s)) s, [])) \/
  (exists body q, data s = Some body /\ query s = Some q /\
                  JS.truthy q = true /\
                  toggleUnit key s
                  = fetchWeatherWithUnit_start key q (otherUnit (unit s))
                      (setUnit (otherUnit (unit s)) s)).
Proof.
  unfold toggleUnit, otherUnit.
  destruct (data s) as [body|]; [|left; split; auto].
  destruct (query s) as [q|]; [|left; split; auto].
  cbn [JS.truthy_opt]. destruct (JS.truthy q) eqn:E.
  - right. exists body, q. auto.
  - left. split; auto.
Qed.

(** What a body returned by either [try] block satisfies. *)
Lemma cityTry_valid (nullMsg : string) (outcome : FetchOutcome) (body : Body) :
  cityTry nullMsg outcome = Return body ->
  main body <> None /\ weather body <> None.
Proof.
  unfold cityTry. destruct outcome as [res|msg]; cbn [bind]; [|discriminate].
  destruct (negb (ok res)).
  - destruct (status res =? 401); [discriminate|].
    destruct (status res =? 404); [discriminate|].
    destruct (status res =? 429); [discriminate|].
    destruct (deref nullMsg (errorDataOf res)) as [o|]; cbn [bind];
      [|discriminate].
    destruct (isServiceError o); discriminate.
  - destruct (json res) as [parsed|]; cbn [bind]; [|discriminate].
    intros H. now apply validate_Return in H.
Qed.

Lemma positionTry_valid (nullMsg : string) (outcome : FetchOutcome)
    (body : Body) :
  positionTry nullMsg outcome = Return body ->
  main body <> None /\ weather body <> None.
Proof.
  unfold positionTry. destruct outcome as [res|msg]; cbn [bind];
    [|discriminate].
  destruct (negb (ok res)).
  - destruct (deref nullMsg (errorDataOf res)) as [o|]; cbn [bind];
      discriminate.
  - destruct (json res) as [parsed|]; cbn [bind]; [|discriminate].
    intros H. now apply validate_Return in H.
Qed.

(** ** Completions *)

(** X5. Every completion of a fetch, on the city path and on the
    geolocation path, for every outcome (network failure, any status, any
    body): loading ends, and either a body with a [main] section and a
    [weather] list is stored with the capture time and the error is left
    as it was, or a non-empty error message is set and [data] and
    [fetchTime] are left as they were. *)
Theorem completion_stores_or_reports
    (nullMsg : string) (outcome : FetchOutcome) (now : Date) (s : State) :
  let done (s' : State) :=
    loading s' = false /\ unit s' = unit s /\
    ((exists body, data s' = Some body /\ main body <> None /\
                   weather body <> None /\ fetchTime s' = Some now /\
                   error s' = error s) \/
     (JS.truthy (error s') = true /\ data s' = data s /\
      fetchTime s' = fetchTime s /\ query s' = query s)) in
  done (fetchWeatherWithUnit_resume nullMsg outcome now s) /\
  done (onPosition_resume nullMsg outcome now s).
Proof.
  cbv zeta. unfold fetchWeatherWithUnit_resume, onPosition_resume. split.
  - destruct (cityTry nullMsg outcome) as [body|msg] eqn:E; cbn.
    + apply cityTry_valid in E as [Hm Hw]. repeat split. left.
      exists body. auto.
    + repeat split. right. repeat split.
      exact (or_else_truthy (Some msg) Msg.fetchFailed eq_refl).
  - destruct (positionTry nullMsg outcome) as [body|msg] eqn:E; cbn.
    + apply positionTry_valid in E as [Hm Hw]. repeat split. left.
      exists body. auto.
    + repeat split. right. repeat split.
      exact (or_else_truthy (Some msg) Msg.geoFetchFailed eq_refl).
Qed.

(** ** Error messages of the city path *)

Lemma prefix_append (needle post : string) :
  String.prefix needle (needle ++ post) = true.
Proof.
  induction needle as [|a needle IH]; cbn.
  - now destruct post.
  - destruct (Ascii.ascii_dec a a) as [_|Hne]; [exact IH|].
    now contradiction Hne.
Qed.

Lemma includes_infix (needle pre post : string) :
  JS.includes needle (pre ++ needle ++ post) = true.
Proof.
  induction pre as [|a pre IH].
  - cbn [append]. destruct (needle ++ post)%string eqn:E;
      cbn [JS.includes]; rewrite <- E, prefix_append; reflexivity.
  - cbn [append JS.includes]. rewrite IH. apply orb_true_r.
Qed.

(** X6. On the city path a non-success response with a status other than
    401, 404 and 429 whose body has a [message] containing 500000 anywhere
    shows the service-error text, whatever [cod] is. *)
Theorem message_with_500000_is_service_error
    (nullMsg : string) (res : Response) (errorData : Body)
    (pre post : string) (now : Date) (s : State) :
  ok res = false ->
  status res <> 401 -> status res <> 404 -> status res <> 429 ->
  json res = Return (Some errorData) ->
  message errorData = Some (pre ++ "500000" ++ post)%string ->
  error (fetchWeatherWithUnit_resume nullMsg (Return res) now s)
  = Msg.serviceError.
Proof.
  intros Hok H401 H404 H429 Hjson Hmsg.
  unfold fetchWeatherWithUnit_resume, cityTry, errorDataOf. cbn [bind].
  rewrite Hok, Hjson. cbn [negb deref bind].
  apply Z.eqb_neq in H401, H404, H429. rewrite H401, H404, H429.
  unfold isServiceError. rewrite Hmsg, includes_infix, orb_true_r.
  reflexivity.
Qed.

(** X6 at HTTP 500 with cod "500" and a message quoting the code. *)
Lemma message_with_500000_is_service_error_witness :
  error (fetchWeatherWithUnit_resume "null has no properties"
           (Return (mkResponse false 500 "Internal Server Error"
                      (Return (Some (mkBody None None None
                                       (Some (CodString "500"))
                                       (Some "Internal error: 500000"%string))))))
           1700000000000 initialState)
  = Msg.serviceError.
Proof.
  apply (message_with_500000_is_service_error "null has no properties"
           (mkResponse false 500 "Internal Server Error"
              (Return (Some (mkBody None None None (Some (CodString "500"))
                               (Some "Internal error: 500000"%string)))))
           (mkBody None None None (Some (CodString "500"))
              (Some "Internal error: 500000"%string))
           "Internal error: " "" 1700000000000 initialState);
    try reflexivity; cbn; lia.
Defined.

(** X7. On the city path the message for HTTP 401, 404 and 429 depends on
    the status alone: two non-success responses with the same such status
    complete a fetch identically, whatever their bodies and status texts
    (also a body that does not parse, is null or carries code 500000). *)
Theorem status_message_ignores_body
    (nullMsg : string) (res res' : Response) (now : Date) (s : State) :
  ok res = false -> ok res' = false ->
  status res = status res' ->
  status res = 401 \/ status res = 404 \/ status res = 429 ->
  fetchWeatherWithUnit_resume nullMsg (Return res) now s
  = fetchWeatherWithUnit_resume nullMsg (Return res') now s.
Proof.
  intros Hok Hok' Hst Hcases.
  unfold fetchWeatherWithUnit_resume, cityTry. cbn [bind].
  rewrite Hok, Hok', <- Hst. cbn [negb].
  destruct Hcases as [E | [E | E]]; rewrite E; reflexivity.
Qed.

(** X7 at HTTP 404 with the provider's body and with JSON null. *)
Lemma status_message_ignores_body_witness :
  fetchWeatherWithUnit_resume "null has no properties"
    (Return (mkResponse false 404 "Not Found"
               (Return (Some (mkBody None None None (Some (CodString "404"))
                                (Some "city not found"%string))))))
    1700000000000 initialState
  = fetchWeatherWithUnit_resume "null has no properties"
      (Return (mkResponse false 404 "" (Return None)))
      1700000000000 initialState.
Proof.
  apply status_message_ignores_body; try reflexivity. right; left; reflexivity.
Defined.

(** X8. A non-success response whose body is JSON null: on the city path
    with a status other than 401, 404 and 429, and on the geolocation path
    with any status, reading the body's properties throws, and the message
    shown is the engine's (or the path's fallback when that is empty), not
    the HTTP status. *)
Theorem null_error_body_shows_engine_message
    (nullMsg : string) (res : Response) (now : Date) (s : State) :
  ok res = false ->
  json res = Return None ->
  (status res <> 401 -> status res <> 404 -> status res <> 429 ->
   error (fetchWeatherWithUnit_resume nullMsg (Return res) now s)
   = JS.or_else (Some nullMsg) Msg.fetchFailed) /\
  error (onPosition_resume nullMsg (Return res) now s)
  = JS.or_else (Some nullMsg) Msg.geoFetchFailed.
Proof.
  intros Hok Hjson. split.
  - intros H401 H404 H429.
    unfold fetchWeatherWithUnit_resume, cityTry, errorDataOf. cbn [bind].
    rewrite Hok, Hjson. cbn [negb deref bind].
    apply Z.eqb_neq in H401, H404, H429. rewrite H401, H404, H429.
    reflexivity.
  - unfold onPosition_resume, positionTry, errorDataOf. cbn [bind].
    rewrite Hok, Hjson. reflexivity.
Qed.

(** X8 at HTTP 502 with the body [null]. *)
Lemma null_error_body_shows_engine_message_witness :
  error (onPosition_resume "Cannot read properties of null"
           (Return (mkResponse false 502 "Bad Gateway" (Return None)))
           1700000000000 initialState)
  = "Cannot read properties of null"%string.
Proof.
  exact (proj2 (null_error_body_shows_engine_message
                  "Cannot read properties of null"
                  (mkResponse false 502 "Bad Gateway" (Return None))
                  1700000000000 initialState eq_refl eq_refl)).
Defined.

(** ** Invariants of the event loop *)

(** What a handler of the city path does to the state and sends. *)
Lemma start_effect (key city : string) (u : UnitSystem) (s : State) :
  let r := fetchWeatherWithUnit_start key city u s in
  unit (fst r) = unit s /\ query (fst r) = query s /\
  ((snd r = [] /\ data (fst r) = data s /\ loading (fst r) = loading s) \/
   (snd r = [CityRequest city key u] /\ JS.truthy key = true /\
    data (fst r) = None /\ loading (fst r) = true)).
Proof.
  cbv zeta. destruct (start_cases key city u s) as [[Hk ->]|[Hk ->]]; cbn;
    auto 10.
Qed.

Lemma cityHandler_effect (key : string) (h : State -> State * list Request)
    (s : State) :
  h = onSubmit key \/ h = toggleUnit key ->
  (snd (h s) = [] /\ data (fst (h s)) = data s /\
   loading (fst (h s)) = loading s) \/
  (exists q u, snd (h s) = [CityRequest q key u] /\
               JS.truthy key = true /\ JS.truthy q = true /\
               query s = Some q /\ u = unit (fst (h s)) /\
               data (fst (h s)) = None /\ loading (fst (h s)) = true).
Proof.
  intros [->| ->].
  - destruct (onSubmit_cases key s) as [[_ ->]|(q & Hq & Ht & ->)];
      [left; auto|].
    destruct (start_effect key q (unit s) s)
      as (Hu & _ & [(Hs & Hd & Hl)|(Hs & Hk & Hd & Hl)]).
    + left; auto.
    + right. exists q, (unit s). auto 10.
  - destruct (toggleUnit_cases key s) as [[_ ->]|(b & q & _ & Hq & Ht & ->)];
      [left; auto|].
    destruct (start_effect key q (otherUnit (unit s))
                (setUnit (otherUnit (unit s)) s))
      as (Hu & _ & [(Hs & Hd & Hl)|(Hs & Hk & Hd & Hl)]).
    + left; auto.
    + right. exists q, (otherUnit (unit s)). rewrite Hu. auto 10.
Qed.

(** What one event adds to the log of requests. *)
Lemma step_requests (key : string) (geo : bool) (nullMsg : string)
    (e : Event) (c c' : Config) :
  step key geo nullMsg e c = Some c' ->
  exists reqs,
    requests c' = requests c ++ reqs /\
    (reqs = [] \/ exists r, reqs = [r] /\ wellFormed key r) /\
    match e with
    | Submitted | UnitToggled | Positioned _ _ _ => True
    | _ => reqs = []
    end.
Proof.
  assert (Hcity : forall h, h = onSubmit key \/ h = toggleUnit key ->
            exists reqs,
              requests (cityHandler h c) = requests c ++ reqs /\
              (reqs = [] \/ exists r, reqs = [r] /\ wellFormed key r)).
  { intros h Hh. unfold cityHandler.
    destruct (cityHandler_effect key h (state c) Hh)
      as [(Hs & _)|(q & u & Hs & Hk & Hq & _)];
      destruct (h (state c)) as [s' reqs]; cbn in *; exists reqs; subst reqs.
    - auto.
    - split; [reflexivity|]. right. eexists. split; [reflexivity|].
      cbn. auto. }
  destruct e; cbn [step].
  - intros [= <-]. exists []. cbn. rewrite app_nil_r. auto.
  - intros [= <-]. destruct (Hcity _ (or_introl eq_refl)) as (r & ? & ?).
    exists r. auto.
  - intros [= <-]. destruct (Hcity _ (or_intror eq_refl)) as (r & ? & ?).
    exists r. auto.
  - destruct (getCurrentLocationWeather geo (state c)) as [s' reg].
    intros [= <-]. exists []. cbn. rewrite app_nil_r. auto.
  - destruct (nth_error (pending c) i) as [[r|u|r]|]; try discriminate;
      intros [= <-]; exists []; cbn; rewrite app_nil_r; auto.
  - destruct (nth_error (pending c) i) as [[r|u|r]|]; try discriminate.
    intros [= <-]. eexists. cbn. split; [reflexivity|]. split; [|exact I].
    right. eexists. split; reflexivity.
  - destruct (nth_error (pending c) i) as [[r|u|r]|]; try discriminate.
    intros [= <-]. exists []. cbn. rewrite app_nil_r. auto.
Qed.

(** A property kept by every event holds along every run. *)
Lemma run_invariant (key : string) (geo : bool) (nullMsg : string)
    (P : Config -> Prop) :
  (forall e c c', P c -> step key geo nullMsg e c = Some c' -> P c') ->
  forall events c c',
    P c -> run key geo nullMsg events c = Some c' -> P c'.
Proof.
  intros Hstep events. induction events as [|e rest IH]; intros c c' HP.
  - intros [= <-]. exact HP.
  - cbn [run]. destruct (step key geo nullMsg e c) as [c1|] eqn:E;
      [|discriminate].
    apply IH. exact (Hstep e c c1 HP E).
Qed.

Lemma storedValid_same_data (s s' : State) :
  data s' = data s \/ data s' = None -> storedValid s -> storedValid s'.
Proof.
  unfold storedValid. intros [-> | ->]; auto.
Qed.

Lemma step_storedValid (key : string) (geo : bool) (nullMsg : string)
    (e : Event) (c c' : Config) :
  storedValid (state c) ->
  step key geo nullMsg e c = Some c' ->
  storedValid (state c').
Proof.
  intros Hv.
  assert (Hcity : forall h, h = onSubmit key \/ h = toggleUnit key ->
            storedValid (state (cityHandler h c))).
  { intros h Hh. unfold cityHandler.
    destruct (cityHandler_effect key h (state c) Hh)
      as [(_ & Hd & _)|(q & u & _ & _ & _ & _ & _ & Hd & _)];
      destruct (h (state c)) as [s' reqs]; cbn in *;
      apply (storedValid_same_data (state c)); auto. }
  destruct e; cbn [step].
  - intros [= <-]. exact Hv.
  - intros [= <-]. apply Hcity. auto.
  - intros [= <-]. apply Hcity. auto.
  - pose proof (geolocation_start_frame geo (state c)) as Hd.
    destruct (getCurrentLocationWeather geo (state c)) as [s' reg].
    intros [= <-]. cbn in *. apply (storedValid_same_data (state c)); auto.
  - destruct (nth_error (pending c) i) as [[r|u|r]|]; try discriminate;
      intros [= <-]; cbn [state];
      unfold fetchWeatherWithUnit_resume, onPosition_resume.
    + destruct (cityTry nullMsg outcome) as [body|msg] eqn:E.
      * apply cityTry_valid in E. exact E.
      * exact Hv.
    + destruct (positionTry nullMsg outcome) as [body|msg] eqn:E.
      * apply positionTry_valid in E. exact E.
      * exact Hv.
  - destruct (nth_error (pending c) i) as [[r|u|r]|]; try discriminate.
    intros [= <-]. exact Hv.
  - destruct (nth_error (pending c) i) as [[r|u|r]|]; try discriminate.
    intros [= <-]. exact Hv.
Qed.

(** X9. In every state the component reaches from its initial state, by
    any sequence of user events and completions with any outcomes, the
    stored data has a [main] section and a [weather] list, so the render's
    call [getWeatherIcon(data, unit)] returns an icon and never throws. *)
Theorem reachable_data_has_icon
    (key : string) (geo : bool) (nullMsg : string) (events : list Event)
    (c : Config) :
  run key geo nullMsg events initialConfig = Some c ->
  storedValid (state c) /\
  exists icon,
    getWeatherIcon (data (state c)) (unit (state c)) = Return icon.
Proof.
  intros Hrun.
  assert (Hv : storedValid (state c)).
  { apply (run_invariant key geo nullMsg (fun c => storedValid (state c))
             (step_storedValid key geo nullMsg) events initialConfig c);
      [exact I|exact Hrun]. }
  split; [exact Hv|]. unfold storedValid in Hv.
  destruct (data (state c)) as [body|]; [|cbn; eauto].
  destruct Hv as [Hm _]. destruct (main body) as [m|] eqn:E; [|contradiction].
  exact (getWeatherIcon_returns_with_main body m _ E).
Qed.

(** X9 on a search for Colombo answered with an empty condition list. *)
Lemma reachable_data_has_icon_witness :
  storedValid (state colomboSessionEnd) /\
  exists icon,
    getWeatherIcon (data (state colomboSessionEnd))
      (unit (state colomboSessionEnd)) = Return icon.
Proof.
  exact (reachable_data_has_icon "key" true "null has no properties"
           colomboSession colomboSessionEnd eq_refl).
Defined.

Lemma step_loading (key : string) (geo : bool) (nullMsg : string)
    (e : Event) (c c' : Config) :
  (loading (state c) = true -> pending c <> []) ->
  step key geo nullMsg e c = Some c' ->
  loading (state c') = true -> pending c' <> [].
Proof.
  intros Hinv.
  assert (Hcity : forall h, h = onSubmit key \/ h = toggleUnit key ->
            loading (state (cityHandler h c)) = true ->
            pending (cityHandler h c) <> []).
  { intros h Hh. unfold cityHandler.
    destruct (cityHandler_effect key h (state c) Hh)
      as [(Hs & _ & Hl)|(q & u & Hs & _)];
      destruct (h (state c)) as [s' reqs]; cbn in *; subst reqs; cbn.
    - rewrite app_nil_r, Hl. exact Hinv.
    - intros _ H. now apply app_eq_nil in H as [_ H]. }
  destruct e; cbn [step].
  - intros [= <-]. exact Hinv.
  - intros [= <-]. apply Hcity. auto.
  - intros [= <-]. apply Hcity. auto.
  - unfold getCurrentLocationWeather. destruct geo; cbn [negb];
      intros [= <-]; cbn.
    + intros _ H. now apply app_eq_nil in H as [_ H].
    + rewrite app_nil_r. exact Hinv.
  - destruct (nth_error (pending c) i) as [[r|u|r]|]; try discriminate;
      intros [= <-]; cbn; discriminate.
  - destruct (nth_error (pending c) i) as [[r|u|r]|]; try discriminate.
    intros [= <-]. cbn. intros _ H. now apply app_eq_nil in H as [_ H].
  - destruct (nth_error (pending c) i) as [[r|u|r]|]; try discriminate.
    intros [= <-]. cbn. discriminate.
Qed.

(** X10. The loading line is never stuck: in every state reached from the
    initial state, if nothing is pending (no fetch in flight and no
    position request outstanding) then [loading] is false. *)
Theorem loading_only_while_pending
    (key : string) (geo : bool) (nullMsg : string) (events : list Event)
    (c : Config) :
  run key geo nullMsg events initialConfig = Some c ->
  pending c = [] ->
  loading (state c) = false.
Proof.
  intros Hrun Hp.
  assert (H : loading (state c) = true -> pending c <> []).
  { apply (run_invariant key geo nullMsg
             (fun c => loading (state c) = true -> pending c <> [])
             (step_loading key geo nullMsg) events initialConfig c);
      [discriminate|exact Hrun]. }
  destruct (loading (state c)); [|reflexivity].
  now contradiction (H eq_refl).
Qed.

Lemma loading_only_while_pending_witness :
  loading (state colomboSessionEnd) = false.
Proof.
  exact (loading_only_while_pending "key" true "null has no properties"
           colomboSession colomboSessionEnd eq_refl eq_refl).
Defined.

(** X11. Every request the component ever sends carries the configured
    key, and a request by city name is sent only with a non-empty key and a
    non-empty city. *)
Theorem sent_requests_well_formed
    (key : string) (geo : bool) (nullMsg : string) (events : list Event)
    (c : Config) :
  run key geo nullMsg events initialConfig = Some c ->
  Forall (wellFormed key) (requests c).
Proof.
  apply (run_invariant key geo nullMsg
           (fun c => Forall (wellFormed key) (requests c))).
  - intros e c0 c1 HP Hstep.
    destruct (step_requests key geo nullMsg e c0 c1 Hstep)
      as (reqs & -> & [->|(r & -> & Hr)] & _).
    + now rewrite app_nil_r.
    + apply Forall_app. split; [exact HP|]. constructor; [exact Hr|constructor].
  - constructor.
Qed.

Lemma sent_requests_well_formed_witness :
  Forall (wellFormed "key") (requests colomboSessionEnd).
Proof.
  exact (sent_requests_well_formed "key" true "null has no properties"
           colomboSession colomboSessionEnd eq_refl).
Defined.

(** X12. No retry and no fan-out: along any run the number of requests
    sent grows by at most one for each submit, unit toggle and position
    callback, and not at all for typing, clicking the location button, a
    completed fetch or a denied position. *)
Theorem one_request_per_user_action
    (key : string) (geo : bool) (nullMsg : string) (events : list Event)
    (c c' : Config) :
  run key geo nullMsg events c = Some c' ->
  (List.length (requests c')
   <= List.length (requests c) + list_sum (map sends events))%nat.
Proof.
  revert c. induction events as [|e rest IH]; intros c.
  - intros [= <-]. cbn. lia.
  - cbn [run]. destruct (step key geo nullMsg e c) as [c1|] eqn:E;
      [|discriminate].
    intros Hrun. apply IH in Hrun.
    destruct (step_requests key geo nullMsg e c c1 E)
      as (reqs & Hreq & Hlen & He).
    rewrite Hreq, List.length_app in Hrun.
    unfold list_sum. cbn [map fold_right]. fold (list_sum (map sends rest)).
    assert (List.length reqs <= sends e)%nat.
    { destruct Hlen as [->|(r & -> & _)]; [cbn; lia|].
      destruct e; cbn in *; try discriminate; lia. }
    lia.
Qed.

Lemma one_request_per_user_action_witness :
  (List.length (requests colomboSessionEnd) <= 0 + 1)%nat.
Proof.
  exact (one_request_per_user_action "key" true "null has no properties"
           colomboSession initialConfig colomboSessionEnd eq_refl).
Defined.

(** ** Without an API key *)

(** X13. Without an API key, as long as the location button is not used,
    the component is inert whatever is typed, submitted or toggled: no
    request is sent, nothing is pending, no result is stored and the
    loading line never shows. *)
Theorem no_key_city_path_is_inert
    (geo : bool) (nullMsg : string) (events : list Event) (c : Config) :
  ~ In LocationClicked events ->
  run EmptyString geo nullMsg events initialConfig = Some c ->
  requests c = [] /\ pending c = [] /\ data (state c) = None /\
  loading (state c) = false /\ fetchTime (state c) = None.
Proof.
  set (J := fun c : Config =>
         requests c = [] /\ pending c = [] /\ data (state c) = None /\
         loading (state c) = false /\ fetchTime (state c) = None).
  assert (HJ : J initialConfig) by (repeat split).
  revert HJ. generalize initialConfig as c0.
  induction events as [|e rest IH]; intros c0 HJ Hin.
  - intros [= <-]. exact HJ.
  - cbn [run].
    assert (Hrest : ~ In LocationClicked rest) by (intros H; apply Hin; now right).
    assert (He : e <> LocationClicked) by (intros ->; apply Hin; now left).
    destruct (step EmptyString geo nullMsg e c0) as [c1|] eqn:E;
      [|discriminate].
    apply IH; [|exact Hrest].
    destruct HJ as (Hr & Hp & Hd & Hl & Hf).
    assert (Hcity : forall h,
              h = onSubmit EmptyString \/ h = toggleUnit EmptyString ->
              J (cityHandler h c0)).
    { intros h Hh. unfold cityHandler.
      destruct (cityHandler_effect EmptyString h (state c0) Hh)
        as [(Hs & Hd' & Hl')|(q & u & _ & Hk & _)]; [|discriminate].
      assert (Hf' : fetchTime (fst (h (state c0))) = fetchTime (state c0)).
      { destruct Hh as [->| ->].
        - destruct (onSubmit_cases EmptyString (state c0))
            as [[_ ->]|(q & _ & _ & ->)]; reflexivity.
        - destruct (toggleUnit_cases EmptyString (state c0))
            as [[_ ->]|(b & q & _ & _ & _ & ->)]; reflexivity. }
      destruct (h (state c0)) as [s' reqs]. cbn in *. subst reqs.
      unfold J. cbn. rewrite !app_nil_r. repeat split; congruence. }
    destruct e; cbn [step] in E.
    + injection E as <-. unfold J. cbn. auto.
    + injection E as <-. apply Hcity. auto.
    + injection E as <-. apply Hcity. auto.
    + now contradiction He.
    + rewrite Hp in E. now destruct i.
    + rewrite Hp in E. now destruct i.
    + rewrite Hp in E. now destruct i.
Qed.

(** X13 on typing a city, submitting twice and toggling the unit. *)
Lemma no_key_city_path_is_inert_witness :
  requests noKeySessionEnd = [] /\ pending noKeySessionEnd = [] /\
  data (state noKeySessionEnd) = None /\
  loading (state noKeySessionEnd) = false /\
  fetchTime (state noKeySessionEnd) = None.
Proof.
  apply (no_key_city_path_is_inert true "null has no properties"
           noKeySession noKeySessionEnd).
  - cbn. intros [H|[H|[H|[H|[]]]]]; discriminate.
  - reflexivity.
Defined.

(** ** Sequences of user actions *)

(** X14. Typing and submitting: with an API key and a non-empty text, the
    fetch that is sent asks for the typed text in the current unit, and the
    state shows loading with error and data cleared; with an empty text the
    submit does nothing, with or without a key. *)
Theorem typed_text_is_what_submit_sends
    (key : string) (geo : bool) (nullMsg text : string) (c : Config) :
  (JS.truthy key = true -> JS.truthy text = true ->
   run key geo nullMsg [Typed text; Submitted] c
   = Some (mkConfig
             (mkState (Some text) None true EmptyString
                (fetchTime (state c)) (unit (state c)))
             (pending c
              ++ [AwaitFetch (CityRequest text key (unit (state c)))])
             (requests c ++ [CityRequest text key (unit (state c))]))) /\
  run key geo nullMsg [Typed EmptyString; Submitted] c
  = Some (mkConfig (setQuery (Some EmptyString) (state c))
            (pending c) (requests c)).
Proof.
  split.
  - intros Hk Ht. cbn. unfold cityHandler, onSubmit, fetchWeather. cbn.
    rewrite Ht. unfold fetchWeatherWithUnit_start. rewrite Hk. reflexivity.
  - cbn. unfold cityHandler. cbn. now rewrite !app_nil_r.
Qed.

Lemma typed_text_is_what_submit_sends_witness :
  run "key" true "null has no properties" [Typed "Kandy"; Submitted]
    initialConfig
  = Some (mkConfig
            (mkState (Some "Kandy"%string) None true EmptyString None metric)
            [AwaitFetch (CityRequest "Kandy" "key" metric)]
            [CityRequest "Kandy" "key" metric]).
Proof.
  exact (proj1 (typed_text_is_what_submit_sends "key" true
                  "null has no properties" "Kandy" initialConfig)
           eq_refl eq_refl).
Defined.

(** X15. Two unit toggles in a row while a result is shown, before the
    response arrives: the second toggle finds [data] cleared and sends
    nothing, so exactly one request was sent, for the other unit; when it
    succeeds its body is stored while [unit] is back at the original unit,
    so the stored temperatures are in the unit that is not displayed. *)
Theorem double_toggle_stores_other_unit
    (key : string) (geo : bool) (nullMsg : string) (s : State)
    (shown : Body) (q : string) (body : Body) (now : Date) :
  JS.truthy key = true ->
  data s = Some shown -> query s = Some q -> JS.truthy q = true ->
  main body <> None -> weather body <> None ->
  exists c',
    run key geo nullMsg
      [UnitToggled; UnitToggled; Settled 0 (Return (okResponse body)) now]
      (mkConfig s [] [])
    = Some c' /\
    requests c' = [CityRequest q key (otherUnit (unit s))] /\
    pending c' = [] /\
    unit (state c') = unit s /\
    data (state c') = Some body.
Proof.
  intros Hk Hd Hq Ht Hm Hw.
  destruct s as [sq sd sl se sf su]. cbn in Hd, Hq. subst sq sd.
  cbn. unfold cityHandler, toggleUnit. cbn. rewrite Ht.
  unfold fetchWeatherWithUnit_start. rewrite Hk. cbn.
  unfold fetchWeatherWithUnit_resume, cityTry, validate. cbn.
  destruct (main body) as [m|]; [|contradiction].
  destruct (weather body) as [w|]; [|contradiction].
  eexists. split; [reflexivity|]. cbn. repeat split.
  now destruct su.
Qed.

Lemma double_toggle_stores_other_unit_witness :
  exists c',
    run "key" true "null has no properties"
      [UnitToggled; UnitToggled;
       Settled 0 (Return (okResponse bodyWithoutConditions)) 1700000360000]
      (mkConfig showingColombo [] [])
    = Some c' /\
    requests c' = [CityRequest "Colombo" "key" imperial] /\
    pending c' = [] /\
    unit (state c') = metric /\
    data (state c') = Some bodyWithoutConditions.
Proof.
  apply (double_toggle_stores_other_unit "key" true "null has no properties"
           showingColombo
           (sampleBody (Some (JS.lit 800)) (Some (JS.lit 30)))
           "Colombo" bodyWithoutConditions 1700000360000);
    try reflexivity; discriminate.
Defined.

(** X16. After a geolocation fetch has succeeded, toggling the unit
    refetches by the place name the provider returned, not by the
    coordinates; when the body has no name, or an empty one, the toggle
    switches the unit and sends nothing. *)
Theorem toggle_after_location_uses_place_name
    (key nullMsg : string) (outcome : FetchOutcome) (now : Date) (s : State)
    (body : Body) :
  positionTry nullMsg outcome = Return body ->
  let located := onPosition_resume nullMsg outcome now s in
  (forall place, name body = Some place -> JS.truthy place = true ->
     JS.truthy key = true ->
     snd (toggleUnit key located)
     = [CityRequest place key (otherUnit (unit s))]) /\
  (JS.truthy_opt (name body) = false ->
     toggleUnit key located = (setUnit (otherUnit (unit s)) located, [])).
Proof.
  intros Htry located. subst located.
  unfold onPosition_resume. rewrite Htry.
  unfold toggleUnit, fetchWeatherWithUnit_start. cbn. split.
  - intros place -> Ht Hk. now rewrite Ht, Hk.
  - intros Hn. destruct (name body) as [place|]; [|reflexivity].
    cbn in Hn. now rewrite Hn.
Qed.

Lemma toggle_after_location_uses_place_name_witness :
  snd (toggleUnit "key"
         (onPosition_resume "null has no properties"
            (Return (okResponse bodyWithoutConditions)) 1700000000000
            initialState))
  = [CityRequest "Colombo" "key" imperial].
Proof.
  exact (proj1 (toggle_after_location_uses_place_name "key"
                  "null has no properties"
                  (Return (okResponse bodyWithoutConditions)) 1700000000000
                  initialState bodyWithoutConditions eq_refl)
           "Colombo"%string eq_refl eq_refl eq_refl).
Defined.

(** X17. The position callback uses the unit of the moment the location
    button was clicked: when the unit is toggled between the click and the
    position, the geolocation request still asks for the old unit while
    the component shows the new one. *)
Theorem position_request_uses_unit_at_click
    (key nullMsg : string) (c : Config) (latitude longitude : JS.number) :
  pending c = [] ->
  exists c',
    run key true nullMsg
      [LocationClicked; UnitToggled; Positioned 0 latitude longitude] c
    = Some c' /\
    In (CoordsRequest latitude longitude key (unit (state c))) (requests c') /\
    In (AwaitPositionFetch
          (CoordsRequest latitude longitude key (unit (state c))))
       (pending c') /\
    unit (state c') = otherUnit (unit (state c)).
Proof.
  intros Hp. destruct c as [s p r]. cbn in Hp. subst p.
  cbn [run step getCurrentLocationWeather negb state pending requests app].
  unfold cityHandler.
  cbn [state pending requests].
  destruct (toggleUnit key (setError EmptyString (setLoading true s)))
    as [s1 reqs] eqn:E.
  cbn [app nth_error remove_nth onPosition_start map].
  eexists. split; [reflexivity|]. cbn [state pending requests].
  repeat split.
  - apply in_or_app. right. now left.
  - apply in_or_app. right. now left.
  - assert (Hu : unit (fst (toggleUnit key
                              (setError EmptyString (setLoading true s))))
                 = otherUnit (unit s)).
    { destruct (toggleUnit_cases key
                  (setError EmptyString (setLoading true s)))
        as [[_ ->]|(b & q & _ & _ & _ & ->)]; [reflexivity|].
      exact (proj1 (start_effect key q (otherUnit (unit s))
                      (setUnit (otherUnit (unit s))
                         (setError EmptyString (setLoading true s))))). }
    now rewrite E in Hu.
Qed.

Lemma position_request_uses_unit_at_click_witness :
  exists c',
    run "key" true "null has no properties"
      [LocationClicked; UnitToggled;
       Positioned 0 (JS.Fin 6.9271) (JS.Fin 79.8612)] initialConfig
    = Some c' /\
    In (CoordsRequest (JS.Fin 6.9271) (JS.Fin 79.8612) "key" metric)
       (requests c') /\
    In (AwaitPositionFetch
          (CoordsRequest (JS.Fin 6.9271) (JS.Fin 79.8612) "key" metric))
       (pending c') /\
    unit (state c') = imperial.
Proof.
  exact (position_request_uses_unit_at_click "key" "null has no properties"
           initialConfig (JS.Fin 6.9271) (JS.Fin 79.8612) eq_refl).
Defined.

(** ** Warmer readings *)

Lemma lt_Fin_spec (p : Q) (k : Z) :
  (JS.lt (JS.Fin p) (JS.lit k) = true /\ (p < inject_Z k)%Q) \/
  (JS.lt (JS.Fin p) (JS.lit k) = false /\ (inject_Z k <= p)%Q).
Proof.
  destruct (Qlt_le_dec p (inject_Z k)) as [H|H].
  - left. split; [now apply lt_Fin_true|exact H].
  - right. split; [now apply lt_Fin_false|exact H].
Qed.

Lemma tempIcon_monotone (b : bool) (t1 t2 : Q) (u : UnitSystem) :
  (t1 <= t2)%Q ->
  (warmth (tempIcon b (JS.Fin t1) u) <= warmth (tempIcon b (JS.Fin t2) u))%nat.
Proof.
  intros Hle. unfold tempIcon.
  destruct u; cbn [freezing cold cool warm].
  - destruct (lt_Fin_spec t1 0) as [[A1 A1']|[A1 A1']],
             (lt_Fin_spec t1 10) as [[B1 B1']|[B1 B1']],
             (lt_Fin_spec t1 15) as [[C1 C1']|[C1 C1']],
             (lt_Fin_spec t1 25) as [[D1 D1']|[D1 D1']],
             (lt_Fin_spec t2 0) as [[A2 A2']|[A2 A2']],
             (lt_Fin_spec t2 10) as [[B2 B2']|[B2 B2']],
             (lt_Fin_spec t2 15) as [[C2 C2']|[C2 C2']],
             (lt_Fin_spec t2 25) as [[D2 D2']|[D2 D2']];
      unfold inject_Z in *; try (exfalso; lra);
      rewrite ?A1, ?B1, ?C1, ?D1, ?A2, ?B2, ?C2, ?D2; destruct b; cbn; lia.
  - destruct (lt_Fin_spec t1 32) as [[A1 A1']|[A1 A1']],
             (lt_Fin_spec t1 50) as [[B1 B1']|[B1 B1']],
             (lt_Fin_spec t1 59) as [[C1 C1']|[C1 C1']],
             (lt_Fin_spec t1 77) as [[D1 D1']|[D1 D1']],
             (lt_Fin_spec t2 32) as [[A2 A2']|[A2 A2']],
             (lt_Fin_spec t2 50) as [[B2 B2']|[B2 B2']],
             (lt_Fin_spec t2 59) as [[C2 C2']|[C2 C2']],
             (lt_Fin_spec t2 77) as [[D2 D2']|[D2 D2']];
      unfold inject_Z in *; try (exfalso; lra);
      rewrite ?A1, ?B1, ?C1, ?D1, ?A2, ?B2, ?C2, ?D2; destruct b; cbn; lia.
Qed.

(** X18. For a code outside the tested ranges (the clear and cloud codes,
    or a missing code) a warmer reading never shows a colder icon: with
    the same condition and unit, raising the temperature moves the icon
    only along Snow, Cloudy, Clear. *)
Theorem warmer_reading_never_colder_icon
    (wd1 wd2 : Body) (m1 m2 : Main) (first1 first2 : Condition)
    (rest1 rest2 : list Condition) (t1 t2 : Q) (u : UnitSystem) :
  main wd1 = Some m1 -> weather wd1 = Some (first1 :: rest1) ->
  main wd2 = Some m2 -> weather wd2 = Some (first2 :: rest2) ->
  id first1 = id first2 ->
  ~ severe (JS.ToNumber (id first1)) ->
  temp m1 = Some (JS.Fin t1) -> temp m2 = Some (JS.Fin t2) ->
  (t1 <= t2)%Q ->
  exists icon1 icon2,
    getWeatherIcon (Some wd1) u = Return icon1 /\
    getWeatherIcon (Some wd2) u = Return icon2 /\
    (warmth icon1 <= warmth icon2)%nat /\
    In icon1 [snowIcon; cloudyIcon; clearIcon] /\
    In icon2 [snowIcon; cloudyIcon; clearIcon].
Proof.
  intros Hm1 Hw1 Hm2 Hw2 Hid Hns Ht1 Ht2 Hle.
  rewrite (getWeatherIcon_reads wd1 m1 first1 rest1 u Hm1 Hw1).
  rewrite (getWeatherIcon_reads wd2 m2 first2 rest2 u Hm2 Hw2).
  rewrite <- Hid, Ht1, Ht2. cbn [JS.ToNumber].
  rewrite !(iconFor_not_severe _ _ u Hns).
  do 2 eexists. split; [reflexivity|]. split; [reflexivity|].
  split; [now apply tempIcon_monotone|].
  split.
  - destruct (tempIcon_range
                (JS.strict_eq (JS.ToNumber (id first1)) (JS.lit 800))
                (JS.Fin t1) u) as [-> | [-> | ->]]; cbn; auto.
  - destruct (tempIcon_range
                (JS.strict_eq (JS.ToNumber (id first1)) (JS.lit 800))
                (JS.Fin t2) u) as [-> | [-> | ->]]; cbn; auto.
Qed.

Lemma warmer_reading_never_colder_icon_witness :
  exists icon1 icon2,
    getWeatherIcon
      (Some (sampleBody (Some (JS.lit 800)) (Some (JS.Fin 12)))) metric
    = Return icon1 /\
    getWeatherIcon
      (Some (sampleBody (Some (JS.lit 800)) (Some (JS.Fin 18)))) metric
    = Return icon2 /\
    (warmth icon1 <= warmth icon2)%nat /\
    In icon1 [snowIcon; cloudyIcon; clearIcon] /\
    In icon2 [snowIcon; cloudyIcon; clearIcon].
Proof.
  apply (warmer_reading_never_colder_icon
           (sampleBody (Some (JS.lit 800)) (Some (JS.Fin 12)))
           (sampleBody (Some (JS.lit 800)) (Some (JS.Fin 18)))
           (sampleMain (Some (JS.Fin 12))) (sampleMain (Some (JS.Fin 18)))
           (mkCondition (Some (JS.lit 800)) None)
           (mkCondition (Some (JS.lit 800)) None) [] [] 12 18 metric);
    try reflexivity.
  - apply not_severe_unmatched. unfold inject_Z. lra.
  - lra.
Defined.
